(** * datasets/videodataset_hdf5.py: a shallow embedding

    The module loads labelled video clips from per-video HDF5 frame archives.
    Python values are embedded as follows.

    - An exception is the [Raise] branch of [result]; the functions of the
      module become functions into [result].
    - A [dict] is an association list in insertion order ([pydict]); assigning
      to a key that is present keeps its position, as in Python.
    - [self.data] is a list of dict objects.  The list itself is the store:
      position [r] of the list is the object, and a target that is that object
      (and not a copy of it) is the reference [TRef r].
    - The h5py library is outside the module.  Its files are a table of
      handles, threaded through [video_loader] by the monad [H5]; what a
      dataset object answers after its file was closed is a field of [World].
    - A tensor is a shape and an indexing function.  Its scalars are never
      computed on, only moved, and are kept as integers. *)

From Stdlib.Strings Require Byte.
From stdpp Require Import base option numbers list strings.

Local Open Scope Z_scope.

(** ** Python results and exceptions *)

Inductive pyerr :=
  | OSError | KeyError | ValueError | IndexError | TypeError
  | RuntimeError | ZeroDivisionError | OverflowError.

Inductive result (A : Type) :=
  | Ok (a : A)
  | Raise (e : pyerr).
Arguments Ok {A} a.
Arguments Raise {A} e.

Global Instance result_ret : MRet result := λ A a, Ok a.
Global Instance result_bind : MBind result := λ A B f m,
  match m with Ok a => f a | Raise e => Raise e end.

Global Instance pyerr_eq_dec : EqDecision pyerr.
Proof. solve_decision. Defined.

(** ** Python sequences *)

(** [l[i]] for a Python list: a negative index counts from the end, an index
    outside [-len, len) raises IndexError. *)
Definition py_position (len : nat) (i : Z) : option nat :=
  if bool_decide (0 ≤ i)
  then (if bool_decide (i < Z.of_nat len) then Some (Z.to_nat i) else None)
  else (if bool_decide (- Z.of_nat len ≤ i) then Some (Z.to_nat (Z.of_nat len + i)) else None).

Definition py_getitem {A} (l : list A) (i : Z) : result A :=
  match py_position (length l) i with
  | Some k => match l !! k with Some x => Ok x | None => Raise IndexError end
  | None => Raise IndexError
  end.

(** [len(range(start, stop, step))], as CPython computes it. *)
Definition range_length (start stop step : Z) : Z :=
  if bool_decide (0 < step)
  then (if bool_decide (start < stop) then (stop - start - 1) `div` step + 1 else 0)
  else if bool_decide (step < 0)
  then (if bool_decide (stop < start) then (start - stop - 1) `div` (- step) + 1 else 0)
  else 0.

(** [list(range(start, stop, step))]; a zero step raises ValueError. *)
Definition py_range (start stop step : Z) : result (list Z) :=
  if bool_decide (step = 0) then Raise ValueError
  else Ok ((λ k : nat, start + Z.of_nat k * step)
             <$> seq 0 (Z.to_nat (range_length start stop step))).

(** [list(range(start, stop))]. *)
Definition py_range2 (start stop : Z) : list Z :=
  (λ k : nat, start + Z.of_nat k * 1)
    <$> seq 0 (Z.to_nat (range_length start stop 1)).

(** ** Python dicts, in insertion order *)

Abbreviation pydict K V := (list (K * V)) (only parsing).

Section pydict.
Context {K V : Type} `{EqDecision K}.

(** [d[k]] as an option; [dict_getitem] raises KeyError. *)
Fixpoint dict_get (d : pydict K V) (k : K) : option V :=
  match d with
  | [] => None
  | (k', v) :: d' => if decide (k' = k) then Some v else dict_get d' k
  end.

Definition dict_getitem (d : pydict K V) (k : K) : result V :=
  match dict_get d k with Some v => Ok v | None => Raise KeyError end.

(** [d[k] = v] *)
Fixpoint dict_set (d : pydict K V) (k : K) (v : V) : pydict K V :=
  match d with
  | [] => [(k, v)]
  | (k', v') :: d' =>
      if decide (k' = k) then (k', v) :: d' else (k', v') :: dict_set d' k v
  end.

Definition dict_keys (d : pydict K V) : list K := fst <$> d.
End pydict.

(** ** The world outside the module *)

Abbreviation path := (list string) (only parsing).

(** [p / name] of pathlib, on paths kept as their components. *)
Definition joinpath (p : path) (name : string) : path := p ++ [name].

Abbreviation blob := (list Byte.byte) (only parsing).

(** A PIL image opened on the bytes of one frame. *)
Inductive image := PILImage (raw : blob).

(** One annotation entry of the database and the parsed annotation file. *)
Record Annotation := {
  ann_label : option string;     (* the key 'label' may be absent *)
  ann_segment : Z * Z            (* 'segment': [start, end] *)
}.

Record VideoEntry := {
  subset : string;
  annotations : Annotation
}.

Record AnnotationData := {
  labels : list string;
  database : pydict string VideoEntry
}.

Record World := {
  (** [utils.load_annotation_data], which is not part of this file *)
  load_annotation_data : path → result AnnotationData;
  (** [Path.exists] *)
  path_exists : path → bool;
  (** the HDF5 files: the named frame collections of each file that opens *)
  h5_files : path → option (pydict string (list blob));
  (** whether [Image.open] identifies the bytes as an image *)
  image_ok : blob → bool;
  (** h5py invalidates the objects of a file when the file is closed; with
      [false] here a dataset object would stay readable after the close *)
  reads_after_close_fail : bool
}.

(** ** h5py handles *)

(** The handle table: entry [fid] says whether file [fid] is open. *)
Abbreviation handles := (list bool) (only parsing).

Definition H5 (A : Type) : Type := handles → result A * handles.

Global Instance H5_ret : MRet H5 := λ A a hs, (Ok a, hs).
Global Instance H5_bind : MBind H5 := λ A B f m hs,
  match m hs with
  | (Ok a, hs') => f a hs'
  | (Raise e, hs') => (Raise e, hs')
  end.

Definition h5_raise {A} (e : pyerr) : H5 A := λ hs, (Raise e, hs).

Record h5file := { fid : nat; file_path : path }.
Record h5dataset := { ds_file : h5file; ds_name : string }.

Definition is_open (hs : handles) (f : h5file) : bool :=
  default false (hs !! fid f).

(** [h5py.File(p, 'r')] *)
Definition h5_open (w : World) (p : path) : H5 h5file := λ hs,
  match h5_files w p with
  | Some _ => (Ok {| fid := length hs; file_path := p |}, hs ++ [true])
  | None => (Raise OSError, hs)
  end.

Definition h5_close (f : h5file) : H5 () := λ hs,
  (Ok (), <[fid f := false]> hs).

(** [with h5py.File(p, 'r') as f: body]: the file is closed when the block is
    left, by its end or by an exception. *)
Definition h5_with_file {A} (w : World) (p : path) (body : h5file → H5 A) : H5 A :=
  λ hs,
  match h5_open w p hs with
  | (Ok f, hs1) =>
      match body f hs1 with
      | (r, hs2) => (r, snd (h5_close f hs2))
      end
  | (Raise e, hs1) => (Raise e, hs1)
  end.

(** [f[name]]: the dataset object; it reads nothing yet. *)
Definition h5_getitem (w : World) (f : h5file) (name : string) : H5 h5dataset := λ hs,
  if is_open hs f
  then match h5_files w (file_path f) ≫= (λ groups, dict_get groups name) with
       | Some _ => (Ok {| ds_file := f; ds_name := name |}, hs)
       | None => (Raise KeyError, hs)
       end
  else (Raise ValueError, hs).

(** The frames a dataset object can reach: none once its file is closed,
    when the world invalidates objects at the close. *)
Definition ds_frames (w : World) (d : h5dataset) : H5 (list blob) := λ hs,
  if reads_after_close_fail w && negb (is_open hs (ds_file d))
  then (Raise ValueError, hs)
  else match h5_files w (file_path (ds_file d)) ≫= (λ groups, dict_get groups (ds_name d)) with
       | Some frames => (Ok frames, hs)
       | None => (Raise ValueError, hs)
       end.

(** [len(d)] *)
Definition ds_len (w : World) (d : h5dataset) : H5 Z :=
  frames ← ds_frames w d; mret (Z.of_nat (length frames)).

(** [d[i]] for an integer [i]; h5py counts a negative index from the end. *)
Definition ds_getitem (w : World) (d : h5dataset) (i : Z) : H5 blob :=
  frames ← ds_frames w d;
  match py_getitem frames i with
  | Ok b => mret b
  | Raise _ => h5_raise IndexError
  end.

(** [Image.open(io.BytesIO(b))] *)
Definition image_open (w : World) (b : blob) : result image :=
  if image_ok w b then Ok (PILImage b) else Raise OSError.

Definition h5_lift {A} (m : result A) : H5 A := λ hs, (m, hs).

(** ** video_loader *)

(** The loop of [video_loader]; [video] is the list built so far. *)
Fixpoint video_loader_loop (w : World) (video_data : h5dataset)
    (frame_indices : list Z) (video : list image) : H5 (list image) :=
  match frame_indices with
  | [] => mret video
  | i :: rest =>
      n ← ds_len w video_data;
      if bool_decide (i < n)
      then b ← ds_getitem w video_data i;
           im ← h5_lift (image_open w b);
           video_loader_loop w video_data rest (video ++ [im])
      else mret video
  end.

(** The [with] block holds the binding of [video_data] only; the loop runs
    after it. *)
Definition video_loader (w : World) (video_file_path : path)
    (frame_indices : list Z) : H5 (list image) :=
  video_data ← h5_with_file w video_file_path (λ f, h5_getitem w f "video");
  video_loader_loop w video_data frame_indices [].

(** A call of the loader from a state with no handle. *)
Definition run_video_loader (w : World) (video_file_path : path)
    (frame_indices : list Z) : result (list image) :=
  fst (video_loader w video_file_path frame_indices []).

(** ** Tensors *)

Record tensor := {
  shape : list nat;
  data_at : list nat → Z     (* the scalar at a full index *)
}.

(** The [k]-th slice along the first axis: what iterating a tensor yields. *)
Definition tensor_slice (t : tensor) (k : nat) : tensor :=
  {| shape := tail (shape t); data_at := λ idx, data_at t (k :: idx) |}.

(** [torch.stack(ts, 0)] on tensors: a list that is empty or whose shapes
    differ raises RuntimeError. *)
Definition stack_tensors (ts : list tensor) : result tensor :=
  match ts with
  | [] => Raise RuntimeError
  | t0 :: _ =>
      if forallb (λ t, bool_decide (shape t = shape t0)) ts
      then Ok {| shape := length ts :: shape t0;
                 data_at := λ idx,
                   match idx with
                   | [] => 0
                   | k :: idx' =>
                       match ts !! k with Some t => data_at t idx' | None => 0 end
                   end |}
      else Raise RuntimeError
  end.

(** [t.permute(1, 0, 2, 3)]: the tensor must have four axes. *)
Definition permute_1_0_2_3 (t : tensor) : result tensor :=
  match shape t with
  | [s0; s1; s2; s3] =>
      Ok {| shape := [s1; s0; s2; s3];
            data_at := λ idx,
              match idx with
              | [a; b; c; d] => data_at t [b; a; c; d]
              | _ => 0
              end |}
  | _ => Raise RuntimeError
  end.

(** An element of a clip before stacking: the loader yields images, a spatial
    transform may turn them into tensors. *)
Inductive frame :=
  | FImage (im : image)
  | FTensor (t : tensor).

Definition frame_tensor (f : frame) : result tensor :=
  match f with FTensor t => Ok t | FImage _ => Raise TypeError end.

(** [torch.stack(clip, 0)]: an empty list raises RuntimeError, an element
    that is not a tensor TypeError. *)
Definition torch_stack (clip : list frame) : result tensor :=
  match clip with
  | [] => Raise RuntimeError
  | _ => ts ← mapM frame_tensor clip; stack_tensors ts
  end.

(** ** Samples, targets and transforms *)

(** The dict built by [make_dataset] for one video. *)
Record Sample := {
  video : path;
  segment : Z * Z;
  frame_indices : list Z;
  video_id : string;
  label : Z
}.

Definition set_segment (x : Sample) (s : Z * Z) : Sample :=
  {| video := video x; segment := s; frame_indices := frame_indices x;
     video_id := video_id x; label := label x |}.

Definition sample_keys : list string :=
  ["video"; "segment"; "frame_indices"; "video_id"; "label"]%string.

(** A target handed to the caller. *)
Inductive pytarget :=
  | TInt (z : Z)              (* an int, as a class index *)
  | TStr (s : string)
  | TList (l : list Z)        (* a list of ints, as a segment *)
  | TRef (r : nat)            (* the dict object stored at [self.data[r]] *)
  | TDict (x : Sample).       (* a dict that is no stored object *)

(** What the temporal transform returns: a sequence of ints, or a sequence
    of such sequences. *)
Inductive FrameIndices :=
  | Flat (l : list Z)
  | Nested (ls : list (list Z)).

(** A spatial transform: its random parameters, [randomize_parameters], and
    the call on one image under the current parameters. *)
Record SpatialTransform := {
  st_params : nat;
  st_randomize : nat → nat;
  st_call : nat → image → frame
}.

Definition randomize_parameters (st : SpatialTransform) : SpatialTransform :=
  {| st_params := st_randomize st (st_params st);
     st_randomize := st_randomize st; st_call := st_call st |}.

(** What [__getitem__] returns and [collate_fn] receives: a clip or a list of
    clips, a target or a list of targets. *)
Inductive clip_entry :=
  | One (c : tensor)
  | Many (cs : list tensor).

Inductive target_entry :=
  | OneT (t : pytarget)
  | ManyT (ts : list pytarget).

(** ** VideoDataset *)

(** The target transform is called on the stored dict object: it receives
    the reference and the object's current contents, and changes neither. *)
Record VideoDataset := {
  data : list Sample;
  class_names : pydict Z string;
  spatial_transform : option SpatialTransform;
  temporal_transform : option (list Z → FrameIndices);
  target_transform : option (nat → Sample → pytarget);
  loader : path → list Z → result (list image)
}.

Definition set_data (self : VideoDataset) (d : list Sample) : VideoDataset :=
  {| data := d; class_names := class_names self;
     spatial_transform := spatial_transform self;
     temporal_transform := temporal_transform self;
     target_transform := target_transform self; loader := loader self |}.

Definition set_spatial_transform (self : VideoDataset)
    (st : option SpatialTransform) : VideoDataset :=
  {| data := data self; class_names := class_names self;
     spatial_transform := st;
     temporal_transform := temporal_transform self;
     target_transform := target_transform self; loader := loader self |}.

(** [self.loading(path, frame_indices)]; the second component is [self] after
    the call, whose spatial transform was re-randomized once. *)
Definition loading (self : VideoDataset) (p : path) (frame_indices : list Z)
    : result tensor * VideoDataset :=
  match loader self p frame_indices with
  | Raise e => (Raise e, self)
  | Ok images =>
      let '(clip, self') :=
        match spatial_transform self with
        | Some st =>
            let st' := randomize_parameters st in
            (st_call st' (st_params st') <$> images,
             set_spatial_transform self (Some st'))
        | None => (FImage <$> images, self)
        end in
      (stacked ← torch_stack clip; permute_1_0_2_3 stacked, self')
  end.

(** The windows of one sample in [temporal_sliding_window]. *)
Definition sliding_windows (sample_duration sample_stride : Z) (x : Sample)
    : result (list Sample) :=
  let '(t_begin, t_end) := segment x in
  starts ← py_range t_begin t_end sample_stride;
  Ok ((λ t : Z,
           let segment := (t, Z.min (t + sample_duration) t_end) in
           {| video := video x; segment := segment;
              frame_indices := py_range2 (fst segment) (snd segment);
              video_id := video_id x; label := label x |}) <$> (starts : list Z)).

(** [self.temporal_sliding_window(sample_duration, sample_stride)];
    [self.data] is assigned after the loop, so an exception leaves it as it
    was. *)
Definition temporal_sliding_window (self : VideoDataset)
    (sample_duration sample_stride : Z) : result VideoDataset :=
  windows ← mapM (sliding_windows sample_duration sample_stride) (data self);
  Ok (set_data self (concat windows)).


(** [[one_frame_indices[0], one_frame_indices[-1] + 1]] *)
Definition window_segment (one_frame_indices : list Z) : result (Z * Z) :=
  first ← py_getitem one_frame_indices 0;
  last ← py_getitem one_frame_indices (-1);
  Ok (first, last + 1).

(** The loop of [__getitem__] over the windows.  [target] is the dict object
    at position [r] of [self.data]; [x] holds the fields it had when the call
    began, of which only ['segment'] is ever assigned.  The assignment
    [current_target['segment'] = ...] goes through the alias [current_target]
    to that stored object. *)
Fixpoint getitem_windows (self : VideoDataset) (p : path) (r : nat) (x : Sample)
    (windows : list (list Z)) (clips : list tensor) (targets : list pytarget)
    : result (list tensor * list pytarget) * VideoDataset :=
  match windows with
  | [] => (Ok (clips, targets), self)
  | one_frame_indices :: rest =>
      match loading self p one_frame_indices with
      | (Raise e, self1) => (Raise e, self1)
      | (Ok clip, self1) =>
          match window_segment one_frame_indices with
          | Raise e => (Raise e, self1)
          | Ok s =>
              let stored := set_segment x s in
              let self2 := set_data self1 (<[r := stored]> (data self1)) in
              let current_target :=
                match target_transform self2 with
                | Some f => f r stored
                | None => TRef r
                end in
              getitem_windows self2 p r x rest
                (clips ++ [clip]) (targets ++ [current_target])
          end
      end
  end.

(** [self[index]]; the second component is [self] after the call. *)
Definition __getitem__ (self : VideoDataset) (index : Z)
    : result (clip_entry * target_entry) * VideoDataset :=
  match py_position (length (data self)) index
          ≫= (λ r, (λ x, (r, x)) <$> data self !! r) with
  | None => (Raise IndexError, self)
  | Some (r, x) =>
      let p := video x in
      let frame_indices :=
        match temporal_transform self with
        | Some f => f (frame_indices x)
        | None => Flat (frame_indices x)
        end in
      match frame_indices with
      | Flat [] | Nested [] => (Raise IndexError, self)   (* frame_indices[0] *)
      | Nested windows =>
          match getitem_windows self p r x windows [] [] with
          | (Ok (clips, targets), self') => (Ok (Many clips, ManyT targets), self')
          | (Raise e, self') => (Raise e, self')
          end
      | Flat frame_indices =>
          match loading self p frame_indices with
          | (Ok clip, self') =>
              let target :=
                match target_transform self with
                | Some f => f r x
                | None => TRef r
                end in
              (Ok (One clip, OneT target), self')
          | (Raise e, self') => (Raise e, self')
          end
      end
  end.

(** ** The annotation indexer *)

(** A [for] loop whose body may raise. *)
Fixpoint for_each {A S} (body : S → A → result S) (l : list A) (s : S) : result S :=
  match l with
  | [] => Ok s
  | a :: l' => s' ← body s a; for_each body l' s'
  end.

Definition get_class_labels (data : AnnotationData) : pydict string Z :=
  fst (foldl (λ '(class_labels_map, index) class_label,
                (dict_set class_labels_map class_label index, index + 1))
             ([], 0) (labels data)).

Definition get_video_ids_and_annotations (data : AnnotationData) (subset' : string)
    : list string * list Annotation :=
  foldl (λ '(video_ids, annotations') '(key, value),
           if decide (subset value = subset')
           then (video_ids ++ [key], annotations' ++ [annotations value])
           else (video_ids, annotations'))
        ([], []) (database data).

(** The body of the loop of [make_dataset] for index [i]; the progress line
    it prints is left out, the division that decides it is not. *)
Definition make_dataset_step (w : World) (root_path : path)
    (class_to_idx : pydict string Z) (video_ids : list string)
    (annotations' : list Annotation) (n_videos : Z)
    (dataset : list Sample) (i : nat) : result (list Sample) :=
  _ ← (if bool_decide (n_videos `div` 5 = 0)
       then Raise ZeroDivisionError       (* i % (n_videos // 5) *)
       else Ok (Z.of_nat i `mod` (n_videos `div` 5)));
  video_id_i ← py_getitem video_ids (Z.of_nat i);
  annotation ← py_getitem annotations' (Z.of_nat i);
  '(label, label_id) ←
    match ann_label annotation with
    | Some label => label_id ← dict_getitem class_to_idx label; Ok (label, label_id)
    | None => Ok ("test"%string, -1)
    end;
  let video_path := joinpath (joinpath root_path label) (video_id_i +:+ ".hdf5") in
  if negb (path_exists w video_path) then Ok dataset
  else
    let segment := ann_segment annotation in
    if bool_decide (snd segment = 1) then Ok dataset
    else
      Ok (dataset ++ [ {| video := video_path; segment := segment;
                          frame_indices := py_range2 (fst segment) (snd segment);
                          video_id := video_id_i; label := label_id |} ]).

Definition make_idx_to_class (class_to_idx : pydict string Z) : pydict Z string :=
  foldl (λ idx_to_class '(name, label), dict_set idx_to_class label name)
        [] class_to_idx.

Definition make_dataset (w : World) (root_path annotation_path : path)
    (subset' : string) : result (list Sample * pydict Z string) :=
  data ← load_annotation_data w annotation_path;
  let '(video_ids, annotations') := get_video_ids_and_annotations data subset' in
  let class_to_idx := get_class_labels data in
  let idx_to_class := make_idx_to_class class_to_idx in
  let n_videos := length video_ids in
  dataset ← for_each
    (make_dataset_step w root_path class_to_idx video_ids annotations'
       (Z.of_nat n_videos))
    (seq 0 n_videos) [];
  Ok (dataset, idx_to_class).

(** [VideoDataset(root_path, annotation_path, subset, ...)] *)
Definition __init__ (w : World) (root_path annotation_path : path)
    (subset' : string) (spatial_transform' : option SpatialTransform)
    (temporal_transform' : option (list Z → FrameIndices))
    (target_transform' : option (nat → Sample → pytarget))
    : result VideoDataset :=
  '(data', class_names') ← make_dataset w root_path annotation_path subset';
  Ok {| data := data'; class_names := class_names';
        spatial_transform := spatial_transform';
        temporal_transform := temporal_transform';
        target_transform := target_transform';
        loader := run_video_loader w |}.

(** ** collate_fn *)

(** What the targets of a batch come back as. *)
Inductive collated_targets :=
  | IntTensor (l : list Z)                  (* a one-axis int64 tensor *)
  | Unbatched (l : list target_entry).      (* the targets themselves, in order *)

(** [for clip in multi_clips]: a list yields its elements, a tensor its
    slices along the first axis. *)
Definition iter_clip (c : clip_entry) : result (list tensor) :=
  match c with
  | Many cs => Ok cs
  | One t =>
      match shape t with
      | [] => Raise TypeError
      | n :: _ => Ok (tensor_slice t <$> seq 0 n)
      end
  end.

(** [for target in multi_targets]: an int is not iterable, a dict yields its
    keys, a string its characters. *)
Definition iter_target (t : target_entry) : result (list pytarget) :=
  match t with
  | ManyT ts => Ok ts
  | OneT (TInt _) => Raise TypeError
  | OneT (TStr s) =>
      Ok ((λ c, TStr (String c EmptyString)) <$> String.list_ascii_of_string s)
  | OneT (TList l) => Ok (TInt <$> l)
  | OneT (TRef _) | OneT (TDict _) => Ok (TStr <$> sample_keys)
  end.

Definition entry_tensor (c : clip_entry) : result tensor :=
  match c with One t => Ok t | Many _ => Raise TypeError end.

(** [default_collate] on targets whose first element is an int is
    [torch.tensor(batch_targets)].  The shape is read off the first
    element, an int, so that the tensor has one axis.  Then the element type
    is inferred over the whole list, in order: an int has type int64, a
    list the type of its elements, an empty list the default type, which is
    a float type; a str is refused with TypeError and a dict with
    RuntimeError. *)
Inductive scalar_type := Long | Float.

Definition promote_types (a b : scalar_type) : scalar_type :=
  match a, b with Long, Long => Long | _, _ => Float end.

Definition infer_sequence_type (ds : list scalar_type) : scalar_type :=
  match ds with [] => Float | _ => foldr promote_types Long ds end.

Definition infer_scalar_type (t : pytarget) : result scalar_type :=
  match t with
  | TInt _ => Ok Long
  | TStr _ => Raise TypeError
  | TList l => Ok (infer_sequence_type ((λ _, Long) <$> l))
  | TRef _ | TDict _ => Raise RuntimeError
  end.

Definition infer_entry_type (t : target_entry) : result scalar_type :=
  match t with
  | OneT t => infer_scalar_type t
  | ManyT ts => ds ← mapM infer_scalar_type ts; Ok (infer_sequence_type ds)
  end.

(** The integers an int64 holds, and those Python converts to a float. *)
Definition int64 (z : Z) : Prop := - 2 ^ 63 ≤ z < 2 ^ 63.

Definition fits_double (z : Z) : Prop := Z.abs z < 2 ^ 1024 - 2 ^ 970.

Global Instance int64_dec z : Decision (int64 z).
Proof. unfold int64. apply _. Defined.

Global Instance fits_double_dec z : Decision (fits_double z).
Proof. unfold fits_double. apply _. Defined.

(** After the inference the elements are stored, in order, as scalars of
    the inferred type: an int outside the int64 range raises RuntimeError
    (it overflows), an int too large for a float OverflowError, and an
    element that is a list, where a number is expected, TypeError. *)
Definition store_scalar (d : scalar_type) (t : target_entry) : result Z :=
  match t with
  | OneT (TInt z) =>
      match d with
      | Long => if bool_decide (int64 z) then Ok z else Raise RuntimeError
      | Float => if bool_decide (fits_double z) then Ok z else Raise OverflowError
      end
  | _ => Raise TypeError
  end.

(** [default_collate] on the clips: [collate_fn] calls it on a list whose
    first element, if any, is a tensor; it stacks along a new first axis. *)
Definition default_collate_clips (batch : list clip_entry) : result tensor :=
  match batch with
  | [] => Raise IndexError
  | _ => ts ← mapM entry_tensor batch; stack_tensors ts
  end.

(** [default_collate] on targets whose first element is an int.  The
    element type is [Float] only when some target is a list, and storing
    that target raises: a tensor that comes back is an int64 tensor. *)
Definition default_collate_ints (batch : list target_entry) : result collated_targets :=
  match batch with
  | [] => Raise IndexError
  | _ =>
      ds ← mapM infer_entry_type batch;
      l ← mapM (store_scalar (infer_sequence_type ds)) batch;
      Ok (IntTensor l)
  end.

Definition collate_fn (batch : list (clip_entry * target_entry))
    : result (tensor * collated_targets) :=
  match batch with
  | [] => Raise ValueError                   (* unpacking the zip of no pair *)
  | (first_clips, _) :: _ =>
      let batch_clips := fst <$> batch in
      let batch_targets := snd <$> batch in
      '(batch_clips, batch_targets) ←
        match first_clips with
        | Many _ =>
            cs ← mapM iter_clip batch_clips;
            ts ← mapM iter_target batch_targets;
            Ok (One <$> concat cs, OneT <$> concat ts)
        | One _ => Ok (batch_clips, batch_targets)
        end;
      first_target ← py_getitem batch_targets 0;
      match first_target with
      | OneT (TInt _) =>
          clips ← default_collate_clips batch_clips;
          targets ← default_collate_ints batch_targets;
          Ok (clips, targets)
      | _ =>
          clips ← default_collate_clips batch_clips;
          Ok (clips, Unbatched batch_targets)
      end
  end.

(** ** The vocabulary of the statements *)

(** The requested indices up to, and without, the first one that is not
    below [n]: the part of a request the loop of [video_loader] serves. *)
Fixpoint served (n : Z) (frame_indices : list Z) : list Z :=
  match frame_indices with
  | [] => []
  | i :: rest => if bool_decide (i < n) then i :: served n rest else []
  end.

(** One turn of the loop of [video_loader] on a readable collection. *)
Definition read_frame (w : World) (frames : list blob) (i : Z) : result image :=
  match py_getitem frames i with
  | Ok b => image_open w b
  | Raise _ => Raise IndexError
  end.

(** The targets a call of [__getitem__] hands out. *)
Definition returned_targets (res : result (clip_entry * target_entry)) : list pytarget :=
  match res with
  | Ok (_, OneT t) => [t]
  | Ok (_, ManyT ts) => ts
  | Raise _ => []
  end.

(** The segment a caller reads from a target, through the reference when
    the target is a stored object. *)
Definition target_segment (self : VideoDataset) (t : pytarget) : option (Z * Z) :=
  match t with
  | TRef r => segment <$> data self !! r
  | TDict x => Some (segment x)
  | TList [a; b] => Some (a, b)
  | _ => None
  end.

(** The frame indices [__getitem__] works on for the stored sample [x]. *)
Definition transformed_frame_indices (self : VideoDataset) (x : Sample) : FrameIndices :=
  match temporal_transform self with
  | Some f => f (frame_indices x)
  | None => Flat (frame_indices x)
  end.

(** Two samples that differ at most in ['segment']. *)
Definition same_but_segment (x x' : Sample) : Prop :=
  video x = video x' ∧ frame_indices x = frame_indices x' ∧
  video_id x = video_id x' ∧ label x = label x'.

(** What the specification asks of [self[index]]: the stored samples are as
    before, and no returned target is a stored object. *)
Definition getitem_leaves_store_alone (self : VideoDataset) (index : Z) : Prop :=
  data (snd (__getitem__ self index)) = data self ∧
  ∀ t, t ∈ returned_targets (fst (__getitem__ self index)) → ∀ r, t ≠ TRef r.


(** [w] is window number [k] of the sample [x] for the duration [D] and the
    stride [S]: it starts at [t0 + k * S], before [t1], ends at the smaller
    of [start + D] and [t1], holds the integers of that range as frame
    indices, and has the other fields of [x]. *)
Definition is_window_of (D S : Z) (x : Sample) (k : nat) (w : Sample) : Prop :=
  let start := fst (segment x) + Z.of_nat k * S in
  let stop := Z.min (start + D) (snd (segment x)) in
  start < snd (segment x) ∧
  segment w = (start, stop) ∧
  frame_indices w = seqZ start (stop - start) ∧
  video w = video x ∧ video_id w = video_id x ∧ label w = label x.

(** The labels of a vocabulary in the order of their first occurrences:
    the reading of the specification, which removes repeated labels. *)
Fixpoint first_occurrences (seen l : list string) : list string :=
  match l with
  | [] => []
  | c :: l' =>
      if decide (c ∈ seen) then first_occurrences seen l'
      else c :: first_occurrences (c :: seen) l'
  end.

(** What the specification asks of [class_to_idx]: the first label gets 0,
    the next new label 1, and so on. *)
Definition dense_in_first_occurrence_order (data : AnnotationData) : Prop :=
  ∀ (k : nat) c, first_occurrences [] (labels data) !! k = Some c →
    dict_get (get_class_labels data) c = Some (Z.of_nat k).

(** One turn of the loop of [get_class_labels]. *)
Definition class_labels_step
    : pydict string Z * Z → string → pydict string Z * Z :=
  λ '(class_labels_map, index) class_label,
    (dict_set class_labels_map class_label index, index + 1).

(** The videos of the requested subset with their annotation, in the order
    of the database: what [make_dataset] loops over. *)
Definition candidates (data : AnnotationData) (subset' : string)
    : list (string * Annotation) :=
  (λ kv, (fst kv, annotations (snd kv)))
    <$> filter (λ kv, subset (snd kv) = subset') (database data).

(** The sample [make_dataset] builds for a candidate before it decides to
    keep it. *)
Definition candidate_sample (root_path : path) (class_to_idx : pydict string Z)
    (c : string * Annotation) : Sample :=
  let label := default "test"%string (ann_label (snd c)) in
  let label_id := default (-1) (ann_label (snd c) ≫= dict_get class_to_idx) in
  {| video := joinpath (joinpath root_path label) (fst c +:+ ".hdf5");
     segment := ann_segment (snd c);
     frame_indices := py_range2 (fst (ann_segment (snd c))) (snd (ann_segment (snd c)));
     video_id := fst c; label := label_id |}.

(** The two tests a sample passes to be kept. *)
Definition retained (w : World) (s : Sample) : Prop :=
  path_exists w (video s) = true ∧ snd (segment s) ≠ 1.

Global Instance retained_dec w s : Decision (retained w s).
Proof. unfold retained. apply _. Defined.

(** The batch entry of a multi-window sample and of a single-window one. *)
Definition multi_window (it : list tensor * list pytarget) : clip_entry * target_entry :=
  (Many (fst it), ManyT (snd it)).

Definition single_window (it : tensor * pytarget) : clip_entry * target_entry :=
  (One (fst it), OneT (snd it)).

(** ** Concrete worlds and datasets *)

Module Examples.

Definition frames4 : list blob :=
  [[Byte.x00]; [Byte.x01]; [Byte.x02]; [Byte.x03]].

Definition clip_path : path := ["root"; "run"; "v0.hdf5"]%string.

(** One archive, [root/run/v0.hdf5], of [n] frames under the key 'video'. *)
Definition archive_world (n : nat) (strict : bool) : World :=
  {| load_annotation_data := λ _, Raise OSError;
     path_exists := λ p, bool_decide (p = clip_path);
     h5_files := λ p,
       if bool_decide (p = clip_path)
       then Some [("video"%string, take n frames4)]
       else None;
     image_ok := λ _, true;
     reads_after_close_fail := strict |}.

(** A spatial transform that turns every image into a tensor of shape
    (channel 3, height 2, width 2) filled with the first byte of the frame. *)
Definition to_tensor : SpatialTransform :=
  {| st_params := 0%nat;
     st_randomize := S;
     st_call := λ _ im,
       FTensor {| shape := [3; 2; 2]%nat;
                  data_at := λ _,
                    match im with
                    | PILImage (b :: _) => Z.of_nat (Byte.to_nat b)
                    | PILImage [] => 0
                    end |} |}.

Definition sample0 : Sample :=
  {| video := clip_path; segment := (0, 4); frame_indices := py_range2 0 4;
     video_id := "v0"; label := 0 |}.

(** A dataset of one sample over [archive_world 4 strict], as [__init__]
    leaves it. *)
Definition dataset0 (strict : bool)
    (temporal_transform' : option (list Z → FrameIndices))
    (target_transform' : option (nat → Sample → pytarget)) : VideoDataset :=
  {| data := [sample0]; class_names := [(0, "run"%string)];
     spatial_transform := Some to_tensor;
     temporal_transform := temporal_transform';
     target_transform := target_transform';
     loader := run_video_loader (archive_world 4 strict) |}.

Definition two_windows : list Z → FrameIndices :=
  λ _, Nested [[0; 1]; [2; 3]].

(** A dataset of one sample with segment [0, 10). *)
Definition sample10 : Sample :=
  {| video := clip_path; segment := (0, 10); frame_indices := py_range2 0 10;
     video_id := "v0"; label := 0 |}.

Definition dataset10 : VideoDataset :=
  {| data := [sample10]; class_names := [(0, "run"%string)];
     spatial_transform := Some to_tensor;
     temporal_transform := None; target_transform := None;
     loader := run_video_loader (archive_world 4 true) |}.

(** An annotation file of six videos, five of them in the subset
    "training"; the archive of "v5" is missing. *)
Definition entry (subset' : string) (l : option string) (s : Z * Z) : VideoEntry :=
  {| subset := subset'; annotations := {| ann_label := l; ann_segment := s |} |}.

Definition annotations6 : AnnotationData :=
  {| labels := ["run"; "jump"]%string;
     database :=
       [("v0", entry "training" (Some "run") (0, 10));
        ("v1", entry "training" (Some "jump") (5, 6));
        ("v2", entry "training" (Some "run") (0, 1));
        ("v3", entry "validation" (Some "jump") (0, 7));
        ("v4", entry "training" None (0, 8));
        ("v5", entry "training" (Some "run") (2, 9))]%string |}.

Definition indexer_world : World :=
  {| load_annotation_data := λ _, Ok annotations6;
     path_exists := λ p, negb (bool_decide (p = ["root"; "run"; "v5.hdf5"]%string));
     h5_files := λ _, None;
     image_ok := λ _, true;
     reads_after_close_fail := true |}.

(** The same file with the label of "v4" outside the vocabulary. *)
Definition annotations_unknown : AnnotationData :=
  {| labels := ["run"; "jump"]%string;
     database :=
       [("v0", entry "training" (Some "run") (0, 10));
        ("v1", entry "training" (Some "jump") (5, 6));
        ("v2", entry "training" (Some "run") (0, 1));
        ("v3", entry "validation" (Some "jump") (0, 7));
        ("v4", entry "training" (Some "swim") (0, 8));
        ("v5", entry "training" (Some "run") (2, 9))]%string |}.

Definition unknown_world : World :=
  {| load_annotation_data := λ _, Ok annotations_unknown;
     path_exists := λ _, true;
     h5_files := λ _, None;
     image_ok := λ _, true;
     reads_after_close_fail := true |}.


End Examples.

(** * Properties *)

(** ** The result monad *)

Lemma bind_Ok {A B} (a : A) (f : A → result B) : (Ok a ≫= f) = f a.
Proof. reflexivity. Qed.

Lemma mapM_result_cons {A B} (f : A → result B) x l :
  mapM f (x :: l) =
    match f x with
    | Ok y => match mapM f l with Ok k => Ok (y :: k) | Raise e => Raise e end
    | Raise e => Raise e
    end.
Proof. reflexivity. Qed.

Lemma mapM_result_ok {A B} (f : A → result B) (g : A → B) l :
  Forall (λ x, f x = Ok (g x)) l → mapM f l = Ok (g <$> l).
Proof.
  induction 1 as [|x l Hx _ IH]; [done|].
  rewrite mapM_result_cons, Hx, IH. done.
Qed.

(** ** The archive reader *)

Section archive_reader.
Context (w : World).

Lemma is_open_fresh hs p :
  is_open (hs ++ [true]) {| fid := length hs; file_path := p |} = true.
Proof.
  unfold is_open; cbn [fid].
  rewrite lookup_app_r, Nat.sub_diag by lia. done.
Qed.

Lemma is_open_closed hs p :
  is_open (<[length hs := false]> (hs ++ [true]))
          {| fid := length hs; file_path := p |} = false.
Proof.
  unfold is_open; cbn [fid].
  rewrite list_lookup_insert_eq; [done|]. rewrite length_app; simpl; lia.
Qed.

(** What the [with] block of [video_loader] leaves: the dataset object of
    a file that is closed by then. *)
Lemma with_block_result p hs :
  h5_with_file w p (λ f, h5_getitem w f "video") hs =
    match h5_files w p with
    | None => (Raise OSError, hs)
    | Some groups =>
        (match dict_get groups "video"%string with
         | Some _ => Ok {| ds_file := {| fid := length hs; file_path := p |};
                           ds_name := "video" |}
         | None => Raise KeyError
         end,
         <[length hs := false]> (hs ++ [true]))
    end.
Proof.
  unfold h5_with_file, h5_open.
  destruct (h5_files w p) as [groups|] eqn:Hp; [|done].
  unfold h5_getitem. rewrite is_open_fresh. simpl. rewrite Hp. simpl.
  destruct (dict_get groups "video"%string); done.
Qed.

Lemma with_block_closes p hs video_data hs1 :
  h5_with_file w p (λ f, h5_getitem w f "video") hs = (Ok video_data, hs1) →
  is_open hs1 (ds_file video_data) = false.
Proof.
  rewrite with_block_result.
  destruct (h5_files w p) as [groups|]; [|done].
  destruct (dict_get groups "video"%string); [|done].
  intros [= <- <-]. apply is_open_closed.
Qed.

(** Reading through a dataset object whose file is closed. *)
Lemma ds_len_closed d hs :
  reads_after_close_fail w = true → is_open hs (ds_file d) = false →
  ds_len w d hs = (Raise ValueError, hs).
Proof.
  intros Hw Hd. unfold ds_len, mbind, H5_bind, ds_frames.
  rewrite Hw, Hd. done.
Qed.

Lemma video_loader_loop_closed d i rest video hs :
  reads_after_close_fail w = true → is_open hs (ds_file d) = false →
  video_loader_loop w d (i :: rest) video hs = (Raise ValueError, hs).
Proof.
  intros Hw Hd. simpl. unfold mbind at 1, H5_bind at 1.
  rewrite ds_len_closed by done. done.
Qed.

(** The loader when reads after the close fail: it raises on every
    non-empty request, and returns the empty list without reading on an
    empty one. *)
Lemma video_loader_strict p frame_indices hs :
  reads_after_close_fail w = true →
  fst (video_loader w p frame_indices hs) =
    match h5_files w p with
    | None => Raise OSError
    | Some groups =>
        match dict_get groups "video"%string with
        | None => Raise KeyError
        | Some _ =>
            match frame_indices with
            | [] => Ok []
            | _ :: _ => Raise ValueError
            end
        end
    end.
Proof.
  intros Hw. unfold video_loader, mbind, H5_bind.
  pose proof (with_block_closes p hs) as Hclosed.
  rewrite with_block_result in *.
  destruct (h5_files w p) as [groups|]; [|done].
  destruct (dict_get groups "video"%string); [|done].
  destruct frame_indices as [|i rest]; [done|].
  rewrite video_loader_loop_closed; [done..|].
  by eapply Hclosed.
Qed.
End archive_reader.

(** C4: when reads after the close of the file fail, the [with] block of
    [video_loader] hands the loop a frame collection whose file is already
    closed, and every call with a non-empty [frame_indices] raises; the
    error is the ValueError of the first [len(video_data)] whenever the file
    opens and holds the key 'video'. *)
Theorem video_loader_reads_after_close (w : World) (p : path)
    (frame_indices : list Z) (hs : handles) :
  reads_after_close_fail w = true →
  frame_indices ≠ [] →
  (∀ video_data hs1,
      h5_with_file w p (λ f, h5_getitem w f "video") hs = (Ok video_data, hs1) →
      is_open hs1 (ds_file video_data) = false) ∧
  ∃ e, fst (video_loader w p frame_indices hs) = Raise e ∧
       (is_Some (h5_files w p ≫= λ groups, dict_get groups "video"%string) →
        e = ValueError).
Proof.
  intros Hw Hne. split; [apply with_block_closes|].
  rewrite video_loader_strict by done.
  destruct (h5_files w p) as [groups|]; simpl.
  - destruct (dict_get groups "video"%string); simpl.
    + destruct frame_indices; [done|]. eauto.
    + eexists; split; [done|]. by intros [? ?].
  - eexists; split; [done|]. by intros [? ?].
Qed.

(** The statement of C4 at the archive of two frames and the request
    [0, 1, 2]. *)
Lemma video_loader_reads_after_close_witness :
  ∃ e, fst (video_loader (Examples.archive_world 2 true) Examples.clip_path
              [0; 1; 2] []) = Raise e ∧
       (is_Some (h5_files (Examples.archive_world 2 true) Examples.clip_path
                   ≫= λ groups, dict_get groups "video"%string) →
        e = ValueError).
Proof.
  apply (video_loader_reads_after_close (Examples.archive_world 2 true)
           Examples.clip_path [0; 1; 2] []); [reflexivity | discriminate].
Defined.

(** C3, at the request of the specification: indices 0, 1, 2 against an
    archive of two frames.  With reads failing after the close the call
    raises at the first [len(video_data)]; no frame is returned. *)
Theorem video_loader_three_of_two_raises :
  run_video_loader (Examples.archive_world 2 true) Examples.clip_path [0; 1; 2]
    = Raise ValueError.
Proof. reflexivity. Qed.

Section archive_reader_kept_open.
Context (w : World) (p : path) (groups : pydict string (list blob))
        (frames : list blob).
Hypothesis Hlenient : reads_after_close_fail w = false.
Hypothesis Hfile : h5_files w p = Some groups.
Hypothesis Hvideo : dict_get groups "video"%string = Some frames.

Lemma ds_frames_kept f hs :
  ds_frames w {| ds_file := {| fid := f; file_path := p |}; ds_name := "video" |} hs
    = (Ok frames, hs).
Proof.
  unfold ds_frames. rewrite Hlenient. simpl. rewrite Hfile. simpl.
  rewrite Hvideo. done.
Qed.

Lemma video_loader_loop_kept f frame_indices video hs :
  video_loader_loop w
    {| ds_file := {| fid := f; file_path := p |}; ds_name := "video" |}
    frame_indices video hs
  = (match mapM (read_frame w frames) (served (Z.of_nat (length frames)) frame_indices) with
     | Ok more => Ok (video ++ more)
     | Raise e => Raise e
     end, hs).
Proof.
  revert video. induction frame_indices as [|i rest IH]; intros video.
  - simpl. by rewrite app_nil_r.
  - cbn [video_loader_loop served].
    unfold ds_len, ds_getitem, mbind, H5_bind, mret, H5_ret, h5_lift, h5_raise.
    rewrite ds_frames_kept.
    destruct (bool_decide (i < Z.of_nat (length frames))); [|simpl; by rewrite app_nil_r].
    rewrite ds_frames_kept, mapM_result_cons. unfold read_frame at 1.
    destruct (py_getitem frames i) as [b|e]; [|done].
    destruct (image_open w b) as [im|e]; [|done].
    rewrite IH. destruct (mapM (read_frame w frames) _); [|done].
    by rewrite <- app_assoc.
Qed.

(** Were the frame collection still readable after the [with] block, the
    loader would return the images of the served part of the request: it
    stops, without an error, at the first index that is not below the
    length of the archive. *)
Lemma video_loader_kept_open frame_indices :
  run_video_loader w p frame_indices
    = mapM (read_frame w frames) (served (Z.of_nat (length frames)) frame_indices).
Proof.
  unfold run_video_loader, video_loader, mbind, H5_bind.
  rewrite with_block_result, Hfile, Hvideo.
  rewrite video_loader_loop_kept. simpl.
  by destruct (mapM (read_frame w frames) _).
Qed.
End archive_reader_kept_open.

(** On the request of C3 that is two images. *)
Lemma video_loader_three_of_two_kept_open :
  run_video_loader (Examples.archive_world 2 false) Examples.clip_path [0; 1; 2]
    = Ok [PILImage [Byte.x00]; PILImage [Byte.x01]].
Proof. reflexivity. Qed.

(** ** The sample assembler *)

Lemma stack_tensors_ok (ts : list tensor) (s : list nat) :
  ts ≠ [] → Forall (λ t, shape t = s) ts →
  ∃ stacked, stack_tensors ts = Ok stacked ∧
    shape stacked = length ts :: s ∧
    ∀ k t idx, ts !! k = Some t → data_at stacked (k :: idx) = data_at t idx.
Proof.
  intros Hne Hs. destruct ts as [|t0 ts']; [done|].
  unfold stack_tensors.
  assert (forallb (λ t, bool_decide (shape t = shape t0)) (t0 :: ts') = true) as ->.
  { apply Is_true_true, forallb_True.
    eapply Forall_impl; [exact Hs|]. intros t Ht. apply bool_decide_pack.
    rewrite Ht. symmetry. by eapply Forall_inv in Hs. }
  eexists; split; [done|]. split.
  - simpl. f_equal. by eapply Forall_inv in Hs.
  - intros k t idx Hk. simpl. change (t0 :: ts') with ([t0] ++ ts') in *. simpl in *.
    by rewrite Hk.
Qed.

Lemma mapM_frame_tensor (ts : list tensor) :
  mapM frame_tensor (FTensor <$> ts) = Ok ts.
Proof.
  induction ts as [|t ts IH]; [done|].
  rewrite fmap_cons, mapM_result_cons, IH. done.
Qed.

Lemma torch_stack_tensors (ts : list tensor) :
  ts ≠ [] → torch_stack (FTensor <$> ts) = stack_tensors ts.
Proof.
  intros Hne. unfold torch_stack. rewrite mapM_frame_tensor.
  by destruct ts.
Qed.



(** [loading] leaves the stored samples and every attribute but the spatial
    transform as they were. *)
Lemma loading_frame self p frame_indices :
  let self' := snd (loading self p frame_indices) in
  data self' = data self ∧ class_names self' = class_names self ∧
  temporal_transform self' = temporal_transform self ∧
  target_transform self' = target_transform self ∧
  loader self' = loader self.
Proof.
  unfold loading. destruct (loader self p frame_indices); [|done].
  by destruct (spatial_transform self).
Qed.

(** The clip of [loading] when the loader returns images and the spatial
    transform turns each into a tensor of shape (channel, height, width):
    one time step per image, axes (channel, time, height, width). *)
Lemma loading_clip self p frame_indices images st (C H W : nat) :
  loader self p frame_indices = Ok images →
  images ≠ [] →
  spatial_transform self = Some st →
  (∀ im, im ∈ images →
     ∃ t, st_call st (st_randomize st (st_params st)) im = FTensor t ∧
          shape t = [C; H; W]) →
  ∃ clip, fst (loading self p frame_indices) = Ok clip ∧
    shape clip = [C; length images; H; W] ∧
    ∀ k im t c h x, images !! k = Some im →
      st_call st (st_randomize st (st_params st)) im = FTensor t →
      data_at clip [c; k; h; x] = data_at t [c; h; x].
Proof.
  intros Hl Hne Hst Hcall. unfold loading. rewrite Hl, Hst. cbn [fst st_params randomize_parameters st_call].
  set (call := st_call st (st_randomize st (st_params st))).
  set (g := λ im, match call im with
                  | FTensor t => t
                  | FImage _ => {| shape := []; data_at := λ _, 0 |}
                  end).
  assert (call <$> images = FTensor <$> (g <$> images)) as ->.
  { rewrite <- list_fmap_compose. apply Forall_fmap_ext_1.
    apply Forall_forall. intros im Him. destruct (Hcall im Him) as (t & Ht & _).
    unfold g, compose. fold call in Ht. by rewrite Ht. }
  rewrite torch_stack_tensors by (by destruct images).
  destruct (stack_tensors_ok (g <$> images) [C; H; W]) as (stacked & -> & Hshape & Hdata).
  { by destruct images. }
  { apply Forall_fmap, Forall_forall. intros im Him.
    destruct (Hcall im Him) as (t & Ht & Hs). unfold g, compose.
    fold call in Ht. by rewrite Ht. }
  simpl. unfold permute_1_0_2_3. rewrite Hshape, length_fmap.
  eexists; split; [done|]. split; [done|].
  intros k im t c h x Hk Ht. simpl.
  rewrite (Hdata k (g im)) by (by rewrite list_lookup_fmap, Hk).
  unfold g. by rewrite Ht.
Qed.

Section getitem.
Context (w : World).
Hypothesis Hstrict : reads_after_close_fail w = true.


End getitem.

(** C8, on a stored sample with segment [0, 4) over an archive of four
    frames, with no temporal transform: the call raises in the loader
    (the frame collection is read after its file was closed) and returns
    no clip. *)
Theorem getitem_single_window_raises :
  fst (__getitem__ (Examples.dataset0 true None None) 0) = Raise ValueError.
Proof. reflexivity. Qed.

(** Were the loader to return one image per stored frame index, the clip
    of a single-window [self[index]] would have [end - start] time steps
    and axes (channel, time, height, width). *)
Lemma getitem_single_window_clip self (index : nat) x images st (C H W : nat) :
  data self !! index = Some x →
  temporal_transform self = None →
  frame_indices x = py_range2 (fst (segment x)) (snd (segment x)) →
  fst (segment x) < snd (segment x) →
  loader self (video x) (frame_indices x) = Ok images →
  length images = length (frame_indices x) →
  spatial_transform self = Some st →
  (∀ im, im ∈ images →
     ∃ t, st_call st (st_randomize st (st_params st)) im = FTensor t ∧
          shape t = [C; H; W]) →
  ∃ clip target, fst (__getitem__ self (Z.of_nat index)) = Ok (One clip, OneT target) ∧
    shape clip = [C; Z.to_nat (snd (segment x) - fst (segment x)); H; W].
Proof.
  intros Hx Htt Hfi Hlt Hl Hlen Hst Hcall.
  assert (length (frame_indices x) = Z.to_nat (snd (segment x) - fst (segment x))) as Hn.
  { rewrite Hfi. unfold py_range2, range_length.
    rewrite length_fmap, length_seq.
    rewrite bool_decide_true by lia. rewrite bool_decide_true by lia.
    f_equal. rewrite Z.div_1_r. lia. }
  unfold __getitem__.
  assert (py_position (length (data self)) (Z.of_nat index) = Some index) as ->.
  { apply lookup_lt_Some in Hx. unfold py_position.
    rewrite bool_decide_true by lia. rewrite bool_decide_true by lia.
    by rewrite Nat2Z.id. }
  simpl. rewrite Hx. simpl. rewrite Htt.
  destruct (frame_indices x) as [|i l] eqn:Hfx.
  { simpl in Hn. lia. }
  destruct (loading_clip self (video x) (i :: l) images st C H W)
    as (clip & Hclip & Hshape & _); try done.
  { intros ->. done. }
  destruct (loading self (video x) (i :: l)) as [[clip'|e] self']; [|done].
  simpl in Hclip. injection Hclip as ->.
  eexists _, _. split; [done|]. by rewrite Hshape, Hlen, Hn.
Qed.

(** On the stored sample with segment [0, 4) and a collection that stays
    readable, that is a clip of 4 time steps. *)
Lemma getitem_single_window_clip_example :
  ∃ clip target,
    fst (__getitem__ (Examples.dataset0 false None None) 0) = Ok (One clip, OneT target) ∧
    shape clip = [3; 4; 2; 2]%nat.
Proof.
  apply (getitem_single_window_clip (Examples.dataset0 false None None) 0
           Examples.sample0
           (PILImage <$> Examples.frames4) Examples.to_tensor 3 2 2);
    try reflexivity.
  intros im _. destruct im as [raw]. by eexists.
Qed.

(** With a target transform that copies the segment out of the dict it is
    handed, the two targets of the two-window call are [0, 2] and [2, 4]. *)
Lemma getitem_two_windows_copied_segments :
  let copy_segment (_ : nat) (x : Sample) := TList [fst (segment x); snd (segment x)] in
  ∃ c0 c1,
    fst (__getitem__ (Examples.dataset0 false (Some Examples.two_windows)
                        (Some copy_segment)) 0)
      = Ok (Many [c0; c1], ManyT [TList [0; 2]; TList [2; 4]]).
Proof. cbn zeta. by do 2 eexists. Qed.

(** C1, on the transform that returns [[0, 1], [2, 3]] and with no target
    transform, the loader being given a frame collection that stays
    readable: two clips and two targets come back, both targets are the
    stored sample itself, and the segment read from either is [2, 4]; the
    first is not [0, 2].  With reads failing after the close the same call
    raises. *)
Theorem getitem_two_windows_targets_share_last_segment :
  let self := Examples.dataset0 false (Some Examples.two_windows) None in
  (∃ c0 c1 t0 t1,
      fst (__getitem__ self 0) = Ok (Many [c0; c1], ManyT [t0; t1]) ∧
      t0 = TRef 0 ∧ t1 = TRef 0 ∧
      target_segment (snd (__getitem__ self 0)) t0 = Some (2, 4) ∧
      target_segment (snd (__getitem__ self 0)) t1 = Some (2, 4)) ∧
  fst (__getitem__ (Examples.dataset0 true (Some Examples.two_windows) None) 0)
    = Raise ValueError.
Proof.
  split; [|reflexivity].
  do 4 eexists. split; [reflexivity|]. repeat split; reflexivity.
Qed.

(** *** What [__getitem__] writes *)




Lemma getitem_windows_cons self p r x win rest clips targets :
  getitem_windows self p r x (win :: rest) clips targets =
    match loading self p win with
    | (Raise e, self1) => (Raise e, self1)
    | (Ok clip, self1) =>
        match window_segment win with
        | Raise e => (Raise e, self1)
        | Ok s =>
            getitem_windows
              (set_data self1 (<[r := set_segment x s]> (data self1))) p r x rest
              (clips ++ [clip])
              (targets ++ [match target_transform self1 with
                           | Some f => f r (set_segment x s)
                           | None => TRef r
                           end])
        end
    end.
Proof. reflexivity. Qed.



(** So a loader that returned images would let a call change the store:
    on the one-sample dataset over a frame collection that stays readable,
    the returned target is the stored sample itself when there is no
    transform at all, and with the two-window transform the stored segment
    [0, 4] has become [2, 4]. *)
Lemma getitem_returns_and_rewrites_stored_sample :
  ¬ getitem_leaves_store_alone (Examples.dataset0 false None None) 0 ∧
  ¬ getitem_leaves_store_alone
      (Examples.dataset0 false (Some Examples.two_windows) None) 0.
Proof.
  split.
  - intros [_ Hfresh]. apply (Hfresh (TRef 0)) with (r := 0%nat); [|done].
    vm_compute. apply list_elem_of_here.
  - intros [Hdata _]. vm_compute in Hdata. discriminate Hdata.
Qed.

(** *** The store of a constructed dataset *)





(** ** The temporal windower *)

Lemma py_range2_seqZ (a b : Z) : py_range2 a b = seqZ a (b - a).
Proof.
  unfold py_range2, seqZ, range_length.
  rewrite bool_decide_true by lia.
  case_bool_decide.
  - rewrite Z.div_1_r. replace (b - a - 1 + 1) with (b - a) by lia.
    apply Forall_fmap_ext_1, Forall_true. intros k. lia.
  - replace (Z.to_nat (b - a)) with 0%nat by lia. done.
Qed.

Lemma range_length_pos (a b S : Z) (k : nat) :
  0 < S → (Z.of_nat k < range_length a b S ↔ a + Z.of_nat k * S < b).
Proof.
  intros HS. unfold range_length. rewrite bool_decide_true by done.
  case_bool_decide as Hab; [|nia].
  pose proof (Z.mul_div_le (b - a - 1) S HS).
  pose proof (Z.mul_succ_div_gt (b - a - 1) S HS).
  nia.
Qed.

Lemma range_length_nonneg (a b S : Z) : 0 ≤ range_length a b S.
Proof.
  unfold range_length. repeat case_bool_decide; try lia.
  - pose proof (Z.div_pos (b - a - 1) S). lia.
  - pose proof (Z.div_pos (a - b - 1) (- S)). lia.
Qed.

(** [range(a, b, S)] for a positive step: item [k] is [a + k * S], and the
    items are those below [b]. *)
Lemma py_range_pos (a b S : Z) :
  0 < S →
  ∃ starts, py_range a b S = Ok starts ∧
    ∀ (k : nat) t, starts !! k = Some t ↔ t = a + Z.of_nat k * S ∧ t < b.
Proof.
  intros HS. unfold py_range. rewrite bool_decide_false by lia.
  eexists; split; [done|]. intros k t.
  rewrite list_lookup_fmap, fmap_Some. setoid_rewrite lookup_seq.
  pose proof (range_length_pos a b S k HS).
  pose proof (range_length_nonneg a b S).
  split.
  - intros (k' & [-> Hk] & ->). simpl. split; [done|]. lia.
  - intros [-> Hlt]. exists k. split; [|done]. split; [done|]. lia.
Qed.

Lemma sliding_windows_pos (D S : Z) (x : Sample) :
  0 < S →
  ∃ ws, sliding_windows D S x = Ok ws ∧
    (∀ k w, ws !! k = Some w → is_window_of D S x k w) ∧
    (∀ k : nat, fst (segment x) + Z.of_nat k * S < snd (segment x) →
                is_Some (ws !! k)).
Proof.
  intros HS. unfold sliding_windows.
  destruct (segment x) as [t_begin t_end] eqn:Hseg.
  destruct (py_range_pos t_begin t_end S HS) as (starts & -> & Hstarts).
  eexists; split; [done|]. split.
  - intros k w0. rewrite list_lookup_fmap, fmap_Some.
    intros (t & Ht & ->). apply Hstarts in Ht as [-> Hlt].
    unfold is_window_of. rewrite Hseg. cbn [fst snd segment frame_indices video video_id label].
    rewrite py_range2_seqZ. done.
  - intros k Hk. simpl in Hk. rewrite list_lookup_fmap, fmap_is_Some.
    eexists. by apply Hstarts.
Qed.

Lemma mapM_result_Forall2 {A B} (f : A → result B) (R : A → B → Prop) l :
  (∀ x, x ∈ l → ∃ y, f x = Ok y ∧ R x y) →
  ∃ k, mapM f l = Ok k ∧ Forall2 R l k.
Proof.
  induction l as [|x l IH]; intros Hf.
  - exists []. by split.
  - destruct (Hf x) as (y & Hy & HR); [apply list_elem_of_here|].
    destruct IH as (k & Hk & HF).
    { intros z Hz. apply Hf. by apply list_elem_of_further. }
    exists (y :: k). rewrite mapM_result_cons, Hy, Hk. split; [done|].
    by constructor.
Qed.

(** C5.  For a positive duration [D] and a positive stride [S],
    [temporal_sliding_window] returns; the stored list of the dataset is
    then the windows of each sample, sample after sample, and the other
    attributes are as before.  Window [k] of a sample with segment
    [t0, t1) starts at [t0 + k * S], there is one for every such start below
    [t1] and no other, it ends at [min (start + D) t1], its frame indices
    are the integers of its segment and its other fields are those of the
    sample.  A sample with segment [0, 10), with [D = 4] and [S = 4], is
    replaced by the windows [0, 4), [4, 8), [8, 10). *)
Theorem temporal_sliding_window_windows (self : VideoDataset) (D S : Z) :
  0 < D → 0 < S →
  ∃ out wss,
    temporal_sliding_window self D S = Ok out ∧
    data out = concat wss ∧
    (class_names out = class_names self ∧
     spatial_transform out = spatial_transform self ∧
     temporal_transform out = temporal_transform self ∧
     target_transform out = target_transform self ∧
     loader out = loader self) ∧
    Forall2 (λ x ws,
               (∀ k w, ws !! k = Some w → is_window_of D S x k w) ∧
               (∀ k : nat, fst (segment x) + Z.of_nat k * S < snd (segment x) →
                           is_Some (ws !! k)))
            (data self) wss ∧
    (D = 4 → S = 4 → ∀ x, data self = [x] → segment x = (0, 10) →
     segment <$> data out = [(0, 4); (4, 8); (8, 10)]).
Proof.
  intros HD HS. unfold temporal_sliding_window.
  destruct (mapM_result_Forall2 (sliding_windows D S)
              (λ x ws,
                 sliding_windows D S x = Ok ws ∧
                 (∀ k w, ws !! k = Some w → is_window_of D S x k w) ∧
                 (∀ k : nat, fst (segment x) + Z.of_nat k * S < snd (segment x) →
                             is_Some (ws !! k)))
              (data self)) as (wss & -> & HF).
  { intros x _. destruct (sliding_windows_pos D S x HS) as (ws & Hws & H1 & H2).
    by exists ws. }
  exists (set_data self (concat wss)), wss.
  split; [done|]. split; [done|]. split; [done|]. split.
  - eapply Forall2_impl; [exact HF|]. by intros x ws (_ & ? & ?).
  - intros -> -> x Hdata Hseg. rewrite Hdata in HF.
    apply Forall2_cons_inv_l in HF as (ws & wss' & (Hws & _) & Hnil & ->).
    apply Forall2_nil_inv_l in Hnil as ->.
    unfold sliding_windows in Hws. rewrite Hseg in Hws.
    injection Hws as <-. simpl. done.
Qed.

(** The statement of C5 at the sample with segment [0, 10), with duration
    and stride 4. *)
Lemma temporal_sliding_window_windows_witness :
  ∃ out,
    temporal_sliding_window Examples.dataset10 4 4 = Ok out ∧
    segment <$> data out = [(0, 4); (4, 8); (8, 10)] ∧
    frame_indices <$> data out = [[0; 1; 2; 3]; [4; 5; 6; 7]; [8; 9]] ∧
    loader out = loader Examples.dataset10.
Proof.
  destruct (temporal_sliding_window_windows Examples.dataset10 4 4)
    as (out & wss & Hout & Hdata & (_ & _ & _ & _ & Hl) & _ & Hex); [lia | lia |].
  exists out. split; [exact Hout|].
  split; [exact (Hex eq_refl eq_refl Examples.sample10 eq_refl eq_refl)|].
  split; [|exact Hl].
  vm_compute in Hout. injection Hout as <-. reflexivity.
Defined.

(** ** Dicts *)

Section pydict_facts.
Context {K V : Type} `{EqDecision K}.
Implicit Types (d : pydict K V) (k : K) (v : V).

Lemma dict_get_set d k v k' :
  dict_get (dict_set d k v) k' = if decide (k = k') then Some v else dict_get d k'.
Proof.
  induction d as [|[k0 v0] d IH]; simpl.
  - by destruct (decide (k = k')).
  - destruct (decide (k0 = k)) as [->|Hne]; simpl.
    + by destruct (decide (k = k')).
    + rewrite IH. destruct (decide (k0 = k')) as [->|]; [|done].
      by rewrite decide_False by congruence.
Qed.

Lemma dict_get_Some_elem_of d k v : dict_get d k = Some v → (k, v) ∈ d.
Proof.
  induction d as [|[k0 v0] d IH]; simpl; [done|].
  destruct (decide (k0 = k)) as [->|].
  - intros [= ->]. apply list_elem_of_here.
  - intros H'. apply list_elem_of_further. auto.
Qed.

Lemma dict_get_None d k : dict_get d k = None ↔ k ∉ dict_keys d.
Proof.
  unfold dict_keys. induction d as [|[k0 v0] d IH]; simpl.
  - split; [intros _; apply not_elem_of_nil|done].
  - rewrite not_elem_of_cons. simpl.
    destruct (decide (k0 = k)) as [->|Hne].
    + split; [done|]. by intros [? _].
    + rewrite IH. split; [intros ?; split; [congruence|done]|]. by intros [_ ?].
Qed.

Lemma dict_get_elem_of d k v :
  NoDup (dict_keys d) → (dict_get d k = Some v ↔ (k, v) ∈ d).
Proof.
  intros Hnd. split; [apply dict_get_Some_elem_of|].
  unfold dict_keys in Hnd. induction d as [|[k0 v0] d IH]; simpl.
  - intros H'. by apply elem_of_nil in H'.
  - apply NoDup_cons in Hnd as [Hk0 Hnd]. simpl in Hk0.
    intros [[= -> ->]|Hin]%elem_of_cons.
    + by rewrite decide_True.
    + rewrite decide_False; [by apply IH|].
      intros ->. apply Hk0. apply list_elem_of_fmap. by exists (k, v).
Qed.

Lemma dict_keys_set d k v :
  dict_keys (dict_set d k v) =
    if decide (k ∈ dict_keys d) then dict_keys d else dict_keys d ++ [k].
Proof.
  unfold dict_keys. induction d as [|[k0 v0] d IH]; csimpl; [done|].
  - destruct (decide (k0 = k)) as [->|Hne]; csimpl.
    + rewrite decide_True; [done|apply list_elem_of_here].
    + rewrite IH. destruct (decide (k ∈ fst <$> d)) as [Hin|Hnin].
      * rewrite decide_True; [done|by apply list_elem_of_further].
      * rewrite decide_False; [done|].
        rewrite not_elem_of_cons. split; [congruence|done].
Qed.

Lemma dict_set_NoDup d k v : NoDup (dict_keys d) → NoDup (dict_keys (dict_set d k v)).
Proof.
  intros Hnd. rewrite dict_keys_set. case_decide; [done|].
  apply NoDup_app. split; [done|]. split; [|apply NoDup_singleton].
  intros x Hx ->%list_elem_of_singleton. done.
Qed.
End pydict_facts.

(** ** The class mapping *)

Lemma get_class_labels_fold (data : AnnotationData) :
  get_class_labels data = fst (foldl class_labels_step ([], 0) (labels data)).
Proof. reflexivity. Qed.

(** After the loop over [l], the counter is the length of [l], the keys are
    distinct and every label is mapped to the place of its last occurrence. *)
Lemma class_labels_loop (l : list string) :
  let out := foldl class_labels_step ([], 0) l in
  snd out = Z.of_nat (length l) ∧
  NoDup (dict_keys (fst out)) ∧
  ∀ c v, dict_get (fst out) c = Some v ↔
    ∃ k : nat, v = Z.of_nat k ∧ l !! k = Some c ∧
               ∀ j, (k < j)%nat → l !! j ≠ Some c.
Proof.
  induction l as [|c0 l IH] using rev_ind; cbn zeta.
  - simpl. split; [done|]. split; [apply NoDup_nil_2|].
    intros c v. split; [done|]. by intros (k & _ & Hk & _).
  - rewrite foldl_app. cbn [foldl].
    destruct (foldl class_labels_step ([], 0) l) as [m i]. cbn zeta in IH.
    simpl in IH. destruct IH as (-> & Hnd & Hget). simpl.
    split; [rewrite length_app; simpl; lia|]. split; [by apply dict_set_NoDup|].
    intros c v. rewrite dict_get_set. destruct (decide (c0 = c)) as [->|Hne].
    + split.
      * intros [= <-]. exists (length l). split; [done|]. split.
        { by rewrite lookup_app_r, Nat.sub_diag by lia. }
        intros j Hj. rewrite lookup_ge_None_2; [done|].
        rewrite length_app; simpl; lia.
      * intros (k & -> & Hk & Hlast). f_equal. f_equal.
        destruct (decide (k = length l)) as [|Hkne]; [done|].
        exfalso. apply (Hlast (length l)).
        { apply lookup_lt_Some in Hk. rewrite length_app in Hk. simpl in Hk. lia. }
        by rewrite lookup_app_r, Nat.sub_diag by lia.
    + rewrite Hget. split.
      * intros (k & -> & Hk & Hlast). exists k. split; [done|].
        split; [by apply lookup_app_l_Some|].
        intros j Hj. destruct (decide (j < length l)%nat).
        { rewrite lookup_app_l by done. by apply Hlast. }
        destruct (decide (j = length l)) as [->|].
        { rewrite lookup_app_r, Nat.sub_diag by lia. simpl. congruence. }
        rewrite lookup_ge_None_2; [done|]. rewrite length_app; simpl; lia.
      * intros (k & -> & Hk & Hlast). exists k. split; [done|].
        assert (k < length l)%nat as Hlt.
        { destruct (decide (k < length l)%nat); [done|]. exfalso.
          assert (k = length l) as ->.
          { apply lookup_lt_Some in Hk. rewrite length_app in Hk. simpl in Hk. lia. }
          rewrite lookup_app_r, Nat.sub_diag in Hk by lia. simpl in Hk. congruence. }
        split; [by rewrite lookup_app_l in Hk|].
        intros j Hj Hjc. apply (Hlast j Hj). by apply lookup_app_l_Some.
Qed.

Lemma idx_to_class_loop (d : pydict string Z) :
  NoDup (snd <$> d) →
  ∀ (acc : pydict Z string) k c,
    dict_get (foldl (λ idx_to_class '(name, label), dict_set idx_to_class label name)
                    acc d) k = Some c
    ↔ (c, k) ∈ d ∨ ((k ∉ (snd <$> d)) ∧ dict_get acc k = Some c).
Proof.
  induction d as [|[c0 v0] d IH]; intros Hnd acc k c.
  - simpl. split; [intros ?; right; split; [apply not_elem_of_nil|done]|].
    intros [Hin|[_ ?]]; [by apply elem_of_nil in Hin|done].
  - rewrite fmap_cons in Hnd. apply NoDup_cons in Hnd as [Hv0 Hnd].
    cbn [foldl]. rewrite (IH Hnd), dict_get_set, fmap_cons.
    rewrite elem_of_cons, not_elem_of_cons. simpl in *.
    assert ((c, k) ∈ d → k ∈ (snd <$> d)) as Hvals.
    { intros Hin. apply list_elem_of_fmap. by exists (c, k). }
    destruct (decide (v0 = k)) as [->|Hne].
    + split.
      * intros [Hin|[_ [= ->]]]; [by apply Hvals in Hin|]. by do 2 left.
      * intros [[[= ->]|Hin]|[[? _] _]]; [|by apply Hvals in Hin|done].
        by right.
    + split.
      * intros [Hin|[? ?]]; [left; by right|]. right. split; [|done].
        split; [congruence|done].
      * intros [[[= _ ?]|Hin]|[[_ ?] ?]]; [congruence|by left|by right].
Qed.

Lemma class_to_idx_values_NoDup (l : list string) :
  NoDup (snd <$> fst (foldl class_labels_step ([], 0) l)).
Proof.
  destruct (class_labels_loop l) as (_ & Hkeys & Hget).
  set (m := fst (foldl class_labels_step ([], 0) l)) in *.
  apply NoDup_fmap_2_strong; [|by eapply NoDup_fmap_1].
  intros [c v] [c' v'] Hin Hin' Hv. simpl in Hv. subst v'.
  apply (dict_get_elem_of _ _ _ Hkeys) in Hin, Hin'.
  apply Hget in Hin as (k & Hv & Hk & _).
  apply Hget in Hin' as (k' & Hv' & Hk' & _).
  assert (k' = k) as -> by lia. congruence.
Qed.

(** C7, as amended.  [class_to_idx] maps each label of the vocabulary to the
    place of its last occurrence in the list of labels; when no label is
    repeated that is the place of the label in the file, so that the K
    labels get the indices 0 .. K-1 in file order.  [idx_to_class] is the
    inverse of [class_to_idx] on every class, and [class_to_idx] is a
    function of the list of labels alone. *)
Theorem class_to_idx_last_positions (data : AnnotationData) :
  let class_to_idx := get_class_labels data in
  let idx_to_class := make_idx_to_class class_to_idx in
  (∀ c v, dict_get class_to_idx c = Some v ↔
     ∃ k : nat, v = Z.of_nat k ∧ labels data !! k = Some c ∧
                ∀ j, (k < j)%nat → labels data !! j ≠ Some c) ∧
  (NoDup (labels data) →
   ∀ c (k : nat), labels data !! k = Some c ↔
                  dict_get class_to_idx c = Some (Z.of_nat k)) ∧
  (∀ c v, dict_get class_to_idx c = Some v ↔ dict_get idx_to_class v = Some c) ∧
  (∀ data', labels data' = labels data →
            get_class_labels data' = get_class_labels data).
Proof.
  cbn zeta. rewrite get_class_labels_fold.
  destruct (class_labels_loop (labels data)) as (_ & Hkeys & Hget).
  pose proof (class_to_idx_values_NoDup (labels data)) as Hvals.
  cbn zeta in *.
  set (m := fst (foldl class_labels_step ([], 0) (labels data))) in *.
  split; [exact Hget|]. split; [|split].
  - intros Hnd c k. rewrite Hget. split.
    + intros Hk. exists k. split; [done|]. split; [done|].
      intros j Hj Hjc. pose proof (NoDup_lookup _ _ _ _ Hnd Hk Hjc). lia.
    + intros (k' & Hkk & Hk' & _). by assert (k = k') as -> by lia.
  - intros c v. unfold make_idx_to_class. rewrite (idx_to_class_loop m Hvals).
    rewrite (dict_get_elem_of _ _ _ Hkeys). split; [by left|].
    intros [?|[_ ?]]; done.
  - intros data' Hl. by rewrite !get_class_labels_fold, Hl.
Qed.

(** C7 as the specification words it fails on a vocabulary that repeats a
    label: in ["a", "b", "a"] the first label "a" gets the index 2, not 0,
    and no class gets the index 0. *)
Lemma class_to_idx_repeated_label :
  let data := {| labels := ["a"; "b"; "a"]%string; database := [] |} in
  ¬ dense_in_first_occurrence_order data ∧
  dict_get (get_class_labels data) "a"%string = Some 2 ∧
  ∀ c, dict_get (get_class_labels data) c ≠ Some 0.
Proof.
  cbn zeta. split; [|split].
  - intros Hdense. specialize (Hdense 0%nat "a"%string eq_refl). discriminate Hdense.
  - reflexivity.
  - intros c. change (get_class_labels _) with [("a"%string, 2); ("b"%string, 1)].
    cbn [dict_get]. repeat case_decide; discriminate.
Qed.

(** The statement of C7 at a vocabulary of three distinct labels. *)
Lemma class_to_idx_last_positions_witness :
  let data := {| labels := ["run"; "jump"; "walk"]%string; database := [] |} in
  (∀ c (k : nat), labels data !! k = Some c ↔
                  dict_get (get_class_labels data) c = Some (Z.of_nat k)) ∧
  dict_get (make_idx_to_class (get_class_labels data)) 1 = Some "jump"%string.
Proof.
  cbn zeta.
  pose proof (class_to_idx_last_positions
                {| labels := ["run"; "jump"; "walk"]%string; database := [] |})
    as (_ & Hdense & Hinv & _).
  split.
  - apply Hdense. cbn [labels].
    apply (bool_decide_unpack (NoDup ["run"; "jump"; "walk"]%string)).
    vm_compute. exact I.
  - apply Hinv. reflexivity.
Defined.

(** ** The annotation indexer *)

Lemma py_getitem_nat {A} (l : list A) (i : nat) x :
  l !! i = Some x → py_getitem l (Z.of_nat i) = Ok x.
Proof.
  intros Hi. unfold py_getitem, py_position.
  pose proof (lookup_lt_Some _ _ _ Hi).
  rewrite bool_decide_true by lia. rewrite bool_decide_true by lia.
  by rewrite Nat2Z.id, Hi.
Qed.

Lemma video_ids_and_annotations_loop (subset' : string)
    (l : pydict string VideoEntry) (a : list string) (b : list Annotation) :
  foldl (λ '(video_ids, annotations') '(key, value),
           if decide (subset value = subset')
           then (video_ids ++ [key], annotations' ++ [annotations value])
           else (video_ids, annotations'))
        (a, b) l
  = (a ++ (fst <$> ((λ kv, (fst kv, annotations (snd kv)))
                      <$> filter (λ kv, subset (snd kv) = subset') l)),
     b ++ (snd <$> ((λ kv, (fst kv, annotations (snd kv)))
                      <$> filter (λ kv, subset (snd kv) = subset') l))).
Proof.
  revert a b. induction l as [|[key value] l IH]; intros a b.
  - simpl. by rewrite !app_nil_r.
  - cbn [foldl]. rewrite filter_cons. cbn [snd].
    destruct (decide (subset value = subset')).
    + rewrite IH, !fmap_cons, <- !app_assoc. done.
    + by rewrite IH.
Qed.

Lemma get_video_ids_and_annotations_candidates data subset' :
  get_video_ids_and_annotations data subset'
    = (fst <$> candidates data subset', snd <$> candidates data subset').
Proof.
  unfold get_video_ids_and_annotations, candidates.
  by rewrite video_ids_and_annotations_loop.
Qed.

Lemma class_labels_keys (l : list string) c :
  c ∈ dict_keys (fst (foldl class_labels_step ([], 0) l)) ↔ c ∈ l.
Proof.
  induction l as [|c0 l IH] using rev_ind.
  - done.
  - rewrite foldl_app. cbn [foldl].
    destruct (foldl class_labels_step ([], 0) l) as [m i]. simpl in *.
    rewrite dict_keys_set, elem_of_app, list_elem_of_singleton, <- IH.
    case_decide as Hin; [|by rewrite elem_of_app, list_elem_of_singleton].
    split; [by left|]. by intros [?| ->].
Qed.

Lemma class_to_idx_known (data : AnnotationData) c :
  c ∈ labels data → is_Some (dict_get (get_class_labels data) c).
Proof.
  intros Hc. rewrite get_class_labels_fold.
  destruct (dict_get _ c) eqn:Hget; [done|].
  apply dict_get_None in Hget. by apply class_labels_keys in Hc.
Qed.

Section make_dataset.
Context (w : World) (root_path : path) (data : AnnotationData) (subset' : string).

Let cands := candidates data subset'.
Let class_to_idx := get_class_labels data.
Let step :=
  make_dataset_step w root_path class_to_idx (fst <$> cands) (snd <$> cands)
    (Z.of_nat (length cands)).

(** With fewer than five videos the first evaluation of
    [i % (n_videos // 5)] divides by zero. *)
Lemma make_dataset_step_few dataset i :
  (length cands < 5)%nat → step dataset i = Raise ZeroDivisionError.
Proof.
  intros Hn. unfold step, make_dataset_step.
  rewrite bool_decide_true; [done|]. apply Z.div_small. lia.
Qed.

Lemma make_dataset_step_many dataset i c :
  (5 ≤ length cands)%nat →
  cands !! i = Some c →
  (∀ l, ann_label (snd c) = Some l → l ∈ labels data) →
  step dataset i
    = Ok (dataset ++ filter (retained w) [candidate_sample root_path class_to_idx c]).
Proof.
  intros Hn Hc Hlabel. unfold step, make_dataset_step.
  assert (Z.of_nat (length cands) `div` 5 ≠ 0) as Hdiv.
  { pose proof (Z.div_le_lower_bound (Z.of_nat (length cands)) 5 1). lia. }
  rewrite (bool_decide_false _ Hdiv), bind_Ok.
  rewrite (py_getitem_nat _ _ (fst c)) by (by rewrite list_lookup_fmap, Hc).
  rewrite bind_Ok.
  rewrite (py_getitem_nat _ _ (snd c)) by (by rewrite list_lookup_fmap, Hc).
  rewrite bind_Ok.
  rewrite filter_cons, filter_nil.
  assert (match ann_label c.2 with
          | Some label => label_id ← dict_getitem class_to_idx label; Ok (label, label_id)
          | None => Ok ("test"%string, -1)
          end = Ok (default "test"%string (ann_label (snd c)),
                    default (-1) (ann_label (snd c) ≫= dict_get class_to_idx))) as ->.
  { destruct (ann_label (snd c)) as [l|] eqn:Hl; [|done].
    destruct (class_to_idx_known data l) as [v Hv]; [by apply Hlabel|].
    fold class_to_idx in Hv. unfold dict_getitem. simpl. by rewrite Hv. }
  rewrite bind_Ok. fold (candidate_sample root_path class_to_idx c).
  destruct (decide (retained w _)) as [[Hex Hseg]|Hnot].
  - cbn [candidate_sample video segment] in Hex, Hseg. rewrite Hex. cbn [negb].
    by rewrite bool_decide_false.
  - destruct (path_exists w _) eqn:Hex; cbn [negb]; [|by rewrite app_nil_r].
    case_bool_decide as Hseg; [by rewrite app_nil_r|].
    exfalso. apply Hnot. by split.
Qed.

Lemma make_dataset_loop_many (m j : nat) dataset :
  (5 ≤ length cands)%nat →
  (∀ c l, c ∈ cands → ann_label (snd c) = Some l → l ∈ labels data) →
  (j + m)%nat = length cands →
  for_each step (seq j m) dataset
    = Ok (dataset ++ filter (retained w)
                       (candidate_sample root_path class_to_idx <$> drop j cands)).
Proof.
  intros Hn Hlabels. revert j dataset.
  induction m as [|m IH]; intros j dataset Hj.
  - rewrite drop_ge by lia. simpl. by rewrite app_nil_r.
  - destruct (lookup_lt_is_Some_2 cands j) as [c Hc]; [lia|].
    cbn [seq for_each].
    rewrite (make_dataset_step_many dataset j c Hn Hc), bind_Ok.
    2:{ intros l. apply Hlabels. by eapply list_elem_of_lookup_2. }
    rewrite IH by lia.
    rewrite (drop_S _ _ _ Hc), fmap_cons, !filter_cons, filter_nil, <- app_assoc.
    by destruct (decide (retained w _)).
Qed.
End make_dataset.

Lemma make_dataset_unfold (w : World) (root_path annotation_path : path)
    (subset' : string) (data : AnnotationData) :
  load_annotation_data w annotation_path = Ok data →
  make_dataset w root_path annotation_path subset' =
    (dataset ← for_each
       (make_dataset_step w root_path (get_class_labels data)
          (fst <$> candidates data subset') (snd <$> candidates data subset')
          (Z.of_nat (length (candidates data subset'))))
       (seq 0 (length (candidates data subset'))) [];
     Ok (dataset, make_idx_to_class (get_class_labels data))).
Proof.
  intros Hload. unfold make_dataset.
  rewrite Hload, bind_Ok, get_video_ids_and_annotations_candidates.
  by rewrite length_fmap.
Qed.

(** C6, as amended.  When the annotation file loads, the videos of the
    subset are none or at least five, and every label they carry is in the
    vocabulary, [make_dataset] returns, in the order of the database, the
    samples of the candidates whose file exists and whose segment does not
    end at 1: every retained sample has a segment that does not end at 1 and
    a file that exists, and no candidate whose segment ends at 1 is
    retained. *)
Theorem make_dataset_retained (w : World) (root_path annotation_path : path)
    (subset' : string) (data : AnnotationData) :
  load_annotation_data w annotation_path = Ok data →
  (length (candidates data subset') = 0 ∨ 5 ≤ length (candidates data subset'))%nat →
  Forall (λ c, ∀ l, ann_label (snd c) = Some l → l ∈ labels data)
         (candidates data subset') →
  ∃ dataset,
    make_dataset w root_path annotation_path subset'
      = Ok (dataset, make_idx_to_class (get_class_labels data)) ∧
    dataset = filter (retained w)
                (candidate_sample root_path (get_class_labels data)
                   <$> candidates data subset') ∧
    Forall (λ s, snd (segment s) ≠ 1 ∧ path_exists w (video s) = true) dataset ∧
    ∀ c, c ∈ candidates data subset' → snd (ann_segment (snd c)) = 1 →
         candidate_sample root_path (get_class_labels data) c ∉ dataset.
Proof.
  intros Hload Hn Hlabels.
  set (kept := filter (retained w)
                 (candidate_sample root_path (get_class_labels data)
                    <$> candidates data subset')).
  assert (Forall (λ s, snd (segment s) ≠ 1 ∧ path_exists w (video s) = true) kept)
    as Hkept.
  { apply Forall_forall. intros s [[Hex Hseg] _]%list_elem_of_filter. done. }
  exists kept. split; [|split; [done|split; [done|]]].
  - rewrite (make_dataset_unfold _ _ _ _ _ Hload).
    destruct Hn as [Hn|Hn].
    + unfold kept. destruct (candidates data subset'); [done|discriminate Hn].
    + rewrite (make_dataset_loop_many w root_path data subset'
                 (length (candidates data subset')) 0 []).
      * reflexivity.
      * exact Hn.
      * intros c l Hc Hl. rewrite Forall_forall in Hlabels. by apply (Hlabels c Hc).
      * reflexivity.
  - intros c _ Hend Hin. eapply Forall_forall in Hkept as [Hseg _]; [|exact Hin].
    by apply Hseg.
Qed.

(** The statement of C6 at the annotation file of six videos: five are in
    the subset, one of them ends at 1 and one has no archive. *)
Lemma make_dataset_retained_witness :
  ∃ dataset,
    make_dataset Examples.indexer_world ["root"]%string ["ann.json"]%string "training"
      = Ok (dataset, [(0, "run"%string); (1, "jump"%string)]) ∧
    Forall (λ s, snd (segment s) ≠ 1 ∧
                 path_exists Examples.indexer_world (video s) = true) dataset.
Proof.
  destruct (make_dataset_retained Examples.indexer_world ["root"]%string
              ["ann.json"]%string "training" Examples.annotations6)
    as (dataset & Hmake & _ & Hkept & _).
  - reflexivity.
  - right. vm_compute. lia.
  - vm_compute (candidates _ _).
    repeat (apply Forall_cons; split;
            [intros l [= <-]; vm_compute; repeat constructor|]).
    apply Forall_nil_2.
  - exists dataset. split; [exact Hmake | exact Hkept].
Defined.

(** C6 as the specification words it fails on the video "v1", whose segment
    [5, 6) has length 1: its end is not 1 and its file exists, so the sample
    is retained. *)
Lemma make_dataset_keeps_unit_segment :
  ∃ dataset names s,
    make_dataset Examples.indexer_world ["root"]%string ["ann.json"]%string "training"
      = Ok (dataset, names) ∧
    dataset !! 1%nat = Some s ∧ video_id s = "v1"%string ∧
    snd (segment s) - fst (segment s) ≤ 1.
Proof.
  do 3 eexists. split; [vm_compute; reflexivity|].
  split; [reflexivity|]. split; [reflexivity|]. vm_compute. discriminate.
Qed.

(** C10.  When the annotation file loads and the subset has between one and
    four videos, [make_dataset], and with it the construction of the
    dataset, raises ZeroDivisionError: the first turn of the loop raises it,
    with no sample appended.  With no video of the subset the result is the
    empty dataset. *)
Theorem make_dataset_few_videos (w : World) (root_path annotation_path : path)
    (subset' : string) (data : AnnotationData)
    (st : option SpatialTransform) (tt : option (list Z → FrameIndices))
    (tg : option (nat → Sample → pytarget)) :
  load_annotation_data w annotation_path = Ok data →
  ((1 ≤ length (candidates data subset') ≤ 4)%nat →
   make_dataset_step w root_path (get_class_labels data)
     (fst <$> candidates data subset') (snd <$> candidates data subset')
     (Z.of_nat (length (candidates data subset'))) [] 0
     = Raise ZeroDivisionError ∧
   make_dataset w root_path annotation_path subset' = Raise ZeroDivisionError ∧
   __init__ w root_path annotation_path subset' st tt tg = Raise ZeroDivisionError) ∧
  (length (candidates data subset') = 0%nat →
   make_dataset w root_path annotation_path subset'
     = Ok ([], make_idx_to_class (get_class_labels data))).
Proof.
  intros Hload. split.
  - intros [Hlo Hhi].
    pose proof (make_dataset_step_few w root_path data subset' [] 0%nat) as Hstep.
    cbn zeta in Hstep. specialize (Hstep ltac:(lia)). rewrite Hstep.
    assert (make_dataset w root_path annotation_path subset' = Raise ZeroDivisionError)
      as Hmake.
    { rewrite (make_dataset_unfold _ _ _ _ _ Hload).
      assert (∃ rest, seq 0 (length (candidates data subset')) = 0%nat :: rest)
        as [rest ->].
      { destruct (length (candidates data subset')); [lia|]. by eexists. }
      cbn [for_each]. by rewrite Hstep. }
    split; [done|]. split; [done|]. unfold __init__. by rewrite Hmake.
  - intros Hn. rewrite (make_dataset_unfold _ _ _ _ _ Hload), Hn. done.
Qed.

(** The statement of C10 at the subsets "validation", of one video, and
    "testing", of none. *)
Lemma make_dataset_few_videos_witness :
  make_dataset Examples.indexer_world ["root"]%string ["ann.json"]%string "validation"
    = Raise ZeroDivisionError ∧
  make_dataset Examples.indexer_world ["root"]%string ["ann.json"]%string "testing"
    = Ok ([], [(0, "run"%string); (1, "jump"%string)]).
Proof.
  split.
  - apply (make_dataset_few_videos Examples.indexer_world ["root"]%string
             ["ann.json"]%string "validation" Examples.annotations6 None None None
             eq_refl).
    vm_compute. lia.
  - apply (make_dataset_few_videos Examples.indexer_world ["root"]%string
             ["ann.json"]%string "testing" Examples.annotations6 None None None
             eq_refl).
    reflexivity.
Defined.

(** ** The batch collator *)

Lemma mapM_entry_tensor (clips : list tensor) :
  mapM entry_tensor (One <$> clips) = Ok clips.
Proof.
  induction clips as [|c clips IH]; [done|].
  by rewrite fmap_cons, mapM_result_cons, IH.
Qed.

(** [default_collate] on targets that are all ints: the inferred type is
    int64, and the tensor of the values comes back when each of them is in
    the range of an int64; otherwise the first that is not overflows. *)
Lemma mapM_infer_ints (zs : list Z) :
  mapM infer_entry_type (OneT <$> (TInt <$> zs)) = Ok ((λ _, Long) <$> zs).
Proof.
  induction zs as [|z zs IH]; [done|].
  by rewrite !fmap_cons, mapM_result_cons, IH.
Qed.

Lemma infer_sequence_type_ints (zs : list Z) :
  zs ≠ [] → infer_sequence_type ((λ _, Long) <$> zs) = Long.
Proof.
  intros Hne.
  assert (foldr promote_types Long ((λ _ : Z, Long) <$> zs) = Long) as Hfold.
  { clear Hne. induction zs as [|z zs IH]; [done|].
    rewrite fmap_cons. simpl. by rewrite IH. }
  destruct zs as [|z zs]; [done|]. exact Hfold.
Qed.

Lemma mapM_store_ints (zs : list Z) :
  Forall int64 zs →
  mapM (store_scalar Long) (OneT <$> (TInt <$> zs)) = Ok zs.
Proof.
  induction 1 as [|z zs Hz _ IH]; [done|].
  rewrite !fmap_cons, mapM_result_cons, IH. simpl.
  by rewrite bool_decide_true.
Qed.

Lemma mapM_store_overflow (zs : list Z) :
  ¬ Forall int64 zs →
  mapM (store_scalar Long) (OneT <$> (TInt <$> zs)) = Raise RuntimeError.
Proof.
  induction zs as [|z zs IH]; intros Hnot.
  - destruct Hnot. constructor.
  - rewrite !fmap_cons, mapM_result_cons. simpl.
    case_bool_decide as Hz; [|done].
    rewrite IH; [done|]. intros Hzs. apply Hnot. by constructor.
Qed.

Lemma default_collate_ints_ints (zs : list Z) :
  zs ≠ [] →
  default_collate_ints (OneT <$> (TInt <$> zs))
    = if decide (Forall int64 zs) then Ok (IntTensor zs) else Raise RuntimeError.
Proof.
  intros Hne. unfold default_collate_ints.
  destruct (OneT <$> (TInt <$> zs)) as [|t0 ts] eqn:Hbatch; [by destruct zs|].
  rewrite <- Hbatch, mapM_infer_ints, bind_Ok, infer_sequence_type_ints by done.
  destruct (decide (Forall int64 zs)) as [Hzs|Hzs].
  - by rewrite mapM_store_ints.
  - by rewrite mapM_store_overflow.
Qed.

(** Conversely, an integer tensor comes back only from targets that are
    all ints in the range of an int64, and it holds their values. *)
Lemma mapM_store_scalar_inv (d : scalar_type) (batch : list target_entry) (l : list Z) :
  mapM (store_scalar d) batch = Ok l → batch = OneT <$> (TInt <$> l).
Proof.
  revert l. induction batch as [|t batch IH]; intros l.
  - by intros [= <-].
  - rewrite mapM_result_cons.
    destruct (store_scalar d t) as [z|e] eqn:Ht; [|done].
    destruct (mapM (store_scalar d) batch) as [l'|e]; [|done].
    intros [= <-]. rewrite !fmap_cons, <- (IH l' eq_refl). f_equal.
    destruct t as [[z'| | | |]|]; try done.
    destruct d; simpl in Ht; case_bool_decide; by simplify_eq.
Qed.

Lemma default_collate_ints_inv (batch : list target_entry) (out : collated_targets) :
  default_collate_ints batch = Ok out →
  ∃ zs, batch = OneT <$> (TInt <$> zs) ∧ Forall int64 zs ∧ out = IntTensor zs.
Proof.
  unfold default_collate_ints.
  destruct batch as [|t0 batch'] eqn:Hbatch; [done|]. rewrite <- Hbatch.
  destruct (mapM infer_entry_type batch) as [ds|e] eqn:Hds; [|done].
  rewrite bind_Ok.
  destruct (mapM (store_scalar (infer_sequence_type ds)) batch) as [l|e] eqn:Hl;
    [|done].
  intros [= <-]. exists l.
  pose proof (mapM_store_scalar_inv _ _ _ Hl) as Hints. split; [done|]. split; [|done].
  assert (l ≠ []) as Hne by (intros ->; by rewrite Hints in Hbatch).
  rewrite Hints, mapM_infer_ints in Hds. injection Hds as <-.
  rewrite infer_sequence_type_ints in Hl by done.
  destruct (decide (Forall int64 l)) as [|Hnot]; [done|].
  by rewrite Hints, mapM_store_overflow in Hl.
Qed.

Lemma mapM_iter_clip (css : list (list tensor)) :
  mapM iter_clip (Many <$> css) = Ok css.
Proof.
  induction css as [|cs css IH]; [done|].
  by rewrite fmap_cons, mapM_result_cons, IH.
Qed.

Lemma mapM_iter_target (tss : list (list pytarget)) :
  mapM iter_target (ManyT <$> tss) = Ok tss.
Proof.
  induction tss as [|ts tss IH]; [done|].
  by rewrite fmap_cons, mapM_result_cons, IH.
Qed.

Lemma default_collate_clips_tensors (clips : list tensor) :
  clips ≠ [] → default_collate_clips (One <$> clips) = stack_tensors clips.
Proof.
  intros Hne. unfold default_collate_clips. rewrite mapM_entry_tensor.
  by destruct clips.
Qed.

(** The end of [collate_fn], on clips that are tensors of one shape and on
    targets that are single targets. *)
Lemma collate_fn_stacks (clips : list tensor) (targets : list pytarget) (s : list nat) :
  clips ≠ [] → targets ≠ [] → Forall (λ c, shape c = s) clips →
  ∃ batched,
    shape batched = length clips :: s ∧
    (∀ k c idx, clips !! k = Some c → data_at batched (k :: idx) = data_at c idx) ∧
    ∀ out,
      ((∃ zs, targets = TInt <$> zs ∧ Forall int64 zs ∧
              out = Ok (batched, IntTensor zs)) ∨
       (∃ zs, targets = TInt <$> zs ∧ ¬ Forall int64 zs ∧
              out = Raise RuntimeError) ∨
       ((∀ z, head targets ≠ Some (TInt z)) ∧
        out = Ok (batched, Unbatched (OneT <$> targets)))) →
      (first_target ← py_getitem (OneT <$> targets) 0;
       match first_target with
       | OneT (TInt _) =>
           clips' ← default_collate_clips (One <$> clips);
           targets' ← default_collate_ints (OneT <$> targets);
           Ok (clips', targets')
       | _ =>
           clips' ← default_collate_clips (One <$> clips);
           Ok (clips', Unbatched (OneT <$> targets))
       end) = out.
Proof.
  intros Hclips Htargets Hshape.
  destruct (stack_tensors_ok clips s Hclips Hshape) as (batched & Hstack & Hs & Hdata).
  exists batched. split; [done|]. split; [done|].
  rewrite default_collate_clips_tensors, Hstack by done.
  destruct targets as [|t0 targets']; [done|].
  rewrite fmap_cons. change (py_getitem (OneT t0 :: _) 0) with (Ok (OneT t0)).
  rewrite bind_Ok.
  intros out [(zs & Hzs & Hrange & ->)|[(zs & Hzs & Hrange & ->)|[Hfirst ->]]].
  - destruct zs as [|z zs]; [done|]. rewrite fmap_cons in Hzs.
    injection Hzs as -> ->. rewrite bind_Ok.
    change (OneT (TInt z) :: (OneT <$> (TInt <$> zs)))
      with (OneT <$> (TInt <$> (z :: zs))).
    rewrite default_collate_ints_ints by done. by rewrite decide_True.
  - destruct zs as [|z zs]; [done|]. rewrite fmap_cons in Hzs.
    injection Hzs as -> ->. rewrite bind_Ok.
    change (OneT (TInt z) :: (OneT <$> (TInt <$> zs)))
      with (OneT <$> (TInt <$> (z :: zs))).
    rewrite default_collate_ints_ints by done. by rewrite decide_False.
  - destruct t0 as [z| | | |]; try by rewrite bind_Ok.
    by destruct (Hfirst z).
Qed.

Lemma fst_multi_window (items : list (list tensor * list pytarget)) :
  fst <$> (multi_window <$> items) = Many <$> (fst <$> items).
Proof. by rewrite <- !list_fmap_compose. Qed.

Lemma snd_multi_window (items : list (list tensor * list pytarget)) :
  snd <$> (multi_window <$> items) = ManyT <$> (snd <$> items).
Proof. by rewrite <- !list_fmap_compose. Qed.

Lemma fst_single_window (items : list (tensor * pytarget)) :
  fst <$> (single_window <$> items) = One <$> (fst <$> items).
Proof. by rewrite <- !list_fmap_compose. Qed.

Lemma snd_single_window (items : list (tensor * pytarget)) :
  snd <$> (single_window <$> items) = OneT <$> (snd <$> items).
Proof. by rewrite <- !list_fmap_compose. Qed.

(** On multi-window samples [collate_fn] flattens one level, the clips and
    the targets alike, and goes on with the flat lists. *)
Lemma collate_fn_multi_window (items : list (list tensor * list pytarget)) :
  items ≠ [] →
  collate_fn (multi_window <$> items) =
    (first_target ← py_getitem (OneT <$> concat (snd <$> items)) 0;
     match first_target with
     | OneT (TInt _) =>
         clips' ← default_collate_clips (One <$> concat (fst <$> items));
         targets' ← default_collate_ints (OneT <$> concat (snd <$> items));
         Ok (clips', targets')
     | _ =>
         clips' ← default_collate_clips (One <$> concat (fst <$> items));
         Ok (clips', Unbatched (OneT <$> concat (snd <$> items)))
     end).
Proof.
  intros Hne. unfold collate_fn.
  destruct (multi_window <$> items) as [|[first_clips first_targets] rest] eqn:Hbatch.
  { by destruct items. }
  assert (∃ cs, first_clips = Many cs) as [cs ->].
  { destruct items as [|[cs0 ts0] ?]; [done|]. injection Hbatch as <- _ _. by eexists. }
  rewrite <- Hbatch. cbn zeta.
  rewrite fst_multi_window, snd_multi_window.
  by rewrite mapM_iter_clip, bind_Ok, mapM_iter_target, bind_Ok, bind_Ok.
Qed.

(** On single-window samples nothing is flattened. *)
Lemma collate_fn_single_window (items : list (tensor * pytarget)) :
  items ≠ [] →
  collate_fn (single_window <$> items) =
    (first_target ← py_getitem (OneT <$> (snd <$> items)) 0;
     match first_target with
     | OneT (TInt _) =>
         clips' ← default_collate_clips (One <$> (fst <$> items));
         targets' ← default_collate_ints (OneT <$> (snd <$> items));
         Ok (clips', targets')
     | _ =>
         clips' ← default_collate_clips (One <$> (fst <$> items));
         Ok (clips', Unbatched (OneT <$> (snd <$> items)))
     end).
Proof.
  intros Hne. unfold collate_fn.
  destruct (single_window <$> items) as [|[first_clips first_targets] rest] eqn:Hbatch.
  { by destruct items. }
  assert (∃ c, first_clips = One c) as [c ->].
  { destruct items as [|[c0 t0] ?]; [done|]. injection Hbatch as <- _ _. by eexists. }
  rewrite <- Hbatch. cbn zeta.
  by rewrite fst_single_window, snd_single_window, bind_Ok.
Qed.

(** C9.  On a batch of multi-window samples, whose clip entries and target
    entries are lists, [collate_fn] stacks the inner clips of all samples,
    in order, into one tensor whose first axis counts them, provided there
    is at least one clip and one target and the clips have one shape.  The
    targets come back as the integer tensor of their values when they are
    integers in the range of an int64 (with an integer outside that range
    the call raises RuntimeError), and as the plain list of all inner
    targets, in order, when the first is not an integer.  Two samples of two
    clips each give a first axis of 4. *)
Theorem collate_fn_flattens (items : list (list tensor * list pytarget))
    (s : list nat) :
  concat (fst <$> items) ≠ [] →
  concat (snd <$> items) ≠ [] →
  Forall (λ c, shape c = s) (concat (fst <$> items)) →
  ∃ batched,
    shape batched = length (concat (fst <$> items)) :: s ∧
    (∀ k c idx, concat (fst <$> items) !! k = Some c →
                data_at batched (k :: idx) = data_at c idx) ∧
    (∀ zs, concat (snd <$> items) = TInt <$> zs → Forall int64 zs →
       collate_fn (multi_window <$> items) = Ok (batched, IntTensor zs)) ∧
    (∀ zs, concat (snd <$> items) = TInt <$> zs → ¬ Forall int64 zs →
       collate_fn (multi_window <$> items) = Raise RuntimeError) ∧
    ((∀ z, head (concat (snd <$> items)) ≠ Some (TInt z)) →
       collate_fn (multi_window <$> items)
         = Ok (batched, Unbatched (OneT <$> concat (snd <$> items)))) ∧
    (length items = 2%nat → Forall (λ it, length (fst it) = 2%nat) items →
     head (shape batched) = Some 4%nat).
Proof.
  intros Hclips Htargets Hshape.
  destruct (collate_fn_stacks _ _ s Hclips Htargets Hshape)
    as (batched & Hs & Hdata & Hend).
  exists batched. split; [done|]. split; [done|].
  assert (items ≠ []) as Hne by (by intros ->).
  rewrite (collate_fn_multi_window items Hne).
  split; [|split; [|split]].
  - intros zs Hzs Hrange. apply Hend. left. by exists zs.
  - intros zs Hzs Hrange. apply Hend. right. left. by exists zs.
  - intros Hfirst. apply Hend. by right; right.
  - intros Hlen Hall. rewrite Hs. simpl. f_equal.
    destruct items as [|[cs0 ts0] [|[cs1 ts1] [|? ?]]]; try discriminate Hlen.
    apply Forall_cons in Hall as [H0 Hall]. apply Forall_cons in Hall as [H1 _].
    simpl in *. rewrite app_nil_r, length_app. lia.
Qed.


(** The statement of C9 at two samples of two clips each with integer
    targets. *)
Lemma collate_fn_flattens_witness :
  let c (z : Z) := {| shape := [3; 2; 2; 2]%nat; data_at := λ _, z |} in
  ∃ batched,
    collate_fn [(Many [c 0; c 1], ManyT [TInt 0; TInt 0]);
                (Many [c 2; c 3], ManyT [TInt 1; TInt 1])]
      = Ok (batched, IntTensor [0; 0; 1; 1]) ∧
    shape batched = [4; 3; 2; 2; 2]%nat.
Proof.
  cbn zeta.
  set (c := λ z : Z, {| shape := [3; 2; 2; 2]%nat; data_at := λ _, z |}).
  destruct (collate_fn_flattens
              [([c 0; c 1], [TInt 0; TInt 0]); ([c 2; c 3], [TInt 1; TInt 1])]
              [3; 2; 2; 2]%nat)
    as (batched & Hs & _ & Hints & _).
  - simpl. discriminate.
  - simpl. discriminate.
  - simpl. repeat constructor.
  - exists batched. split; [|exact Hs].
    apply (Hints [0; 0; 1; 1] eq_refl).
    repeat constructor; unfold int64; lia.
Defined.

(** * Further properties of the module *)

(** ** video_loader *)

Lemma video_loader_loop_handles (w : World) d frame_indices video hs :
  snd (video_loader_loop w d frame_indices video hs) = hs.
Proof.
  revert video. induction frame_indices as [|i rest IH]; intros video; [done|].
  cbn [video_loader_loop].
  unfold ds_len, ds_getitem, mbind, H5_bind, mret, H5_ret, h5_lift, h5_raise.
  destruct (ds_frames w d hs) as [[frames|e] hs'] eqn:Hframes.
  - assert (hs' = hs) as ->.
    { unfold ds_frames in Hframes. repeat case_match; by simplify_eq. }
    case_bool_decide; [|done]. rewrite Hframes.
    destruct (py_getitem frames i); [|done].
    destruct (image_open w a); [apply IH|done].
  - unfold ds_frames in Hframes. repeat case_match; by simplify_eq.
Qed.

(** X1.  Whatever [video_loader] returns or raises, it leaves no file open:
    the handles that were there are as before, and every handle the call
    added is closed. *)
Theorem video_loader_leaves_no_open_handle (w : World) (p : path)
    (frame_indices : list Z) (hs : list bool) :
  let hs' := snd (video_loader w p frame_indices hs) in
  take (length hs) hs' = hs ∧ Forall (λ b, b = false) (drop (length hs) hs').
Proof.
  cbn zeta. unfold video_loader, mbind, H5_bind.
  rewrite with_block_result.
  assert (<[length hs := false]> (hs ++ [true]) = hs ++ [false]) as Hclosed.
  { rewrite insert_app_r_alt, Nat.sub_diag by lia. done. }
  assert (take (length hs) (hs ++ [false]) = hs ∧
          Forall (λ b, b = false) (drop (length hs) (hs ++ [false]))) as Hfinal.
  { rewrite take_app_length, drop_app_length. split; [done|]. by repeat constructor. }
  destruct (h5_files w p) as [groups|].
  - rewrite Hclosed.
    destruct (dict_get groups "video"%string); [|exact Hfinal].
    pose proof (video_loader_loop_handles w
                  {| ds_file := {| fid := length hs; file_path := p |};
                     ds_name := "video" |} frame_indices [] (hs ++ [false])) as Hloop.
    destruct (video_loader_loop w _ frame_indices [] (hs ++ [false])) as [r hs'].
    simpl in Hloop. subst hs'. exact Hfinal.
  - simpl. rewrite firstn_all, drop_all. by split.
Qed.

(** X2.  When the archive does not open, or opens but holds no collection
    under the key 'video', [video_loader] raises, OSError in the first case
    and KeyError in the second, whatever the request. *)
Theorem video_loader_missing_archive (w : World) (p : path)
    (frame_indices : list Z) (hs : list bool) :
  h5_files w p ≫= (λ groups, dict_get groups "video"%string) = None →
  fst (video_loader w p frame_indices hs)
    = Raise (match h5_files w p with Some _ => KeyError | None => OSError end).
Proof.
  intros Hnone. unfold video_loader, mbind, H5_bind.
  rewrite with_block_result.
  destruct (h5_files w p) as [groups|]; [|done].
  simpl in Hnone. by rewrite Hnone.
Qed.

(** The statement of X2 at a path where there is no archive. *)
Lemma video_loader_missing_archive_witness :
  fst (video_loader (Examples.archive_world 2 true) ["root"; "v9.hdf5"]%string
         [0; 1] []) = Raise OSError.
Proof.
  exact (video_loader_missing_archive (Examples.archive_world 2 true)
           ["root"; "v9.hdf5"]%string [0; 1] [] eq_refl).
Defined.

(** X3.  On an empty request [video_loader] returns the empty list as soon
    as the archive opens and holds 'video': the frame collection is never
    read, so it does not matter that its file is closed. *)
Theorem video_loader_empty_request (w : World) (p : path)
    (groups : pydict string (list blob)) (frames : list blob) (hs : list bool) :
  h5_files w p = Some groups →
  dict_get groups "video"%string = Some frames →
  fst (video_loader w p [] hs) = Ok [].
Proof.
  intros Hfile Hvideo. unfold video_loader, mbind, H5_bind.
  by rewrite with_block_result, Hfile, Hvideo.
Qed.

(** The statement of X3 at the archive of two frames, reads failing after
    the close. *)
Lemma video_loader_empty_request_witness :
  fst (video_loader (Examples.archive_world 2 true) Examples.clip_path [] []) = Ok [].
Proof.
  exact (video_loader_empty_request (Examples.archive_world 2 true)
           Examples.clip_path _ _ [] eq_refl eq_refl).
Defined.

(** ** The annotation indexer *)

(** X6.  [get_video_ids_and_annotations] returns two lists of one length
    that hold, position by position and in the order of the database, the
    id and the annotation of exactly the videos whose subset is the
    requested one. *)
Theorem get_video_ids_and_annotations_selects (data : AnnotationData)
    (subset' : string) :
  let r := get_video_ids_and_annotations data subset' in
  length (fst r) = length (snd r) ∧
  fst r `sublist_of` (fst <$> database data) ∧
  (∀ i vid a, fst r !! i = Some vid → snd r !! i = Some a →
     ∃ e, (vid, e) ∈ database data ∧ subset e = subset' ∧ annotations e = a) ∧
  (∀ vid e, (vid, e) ∈ database data → subset e = subset' →
     ∃ i, fst r !! i = Some vid ∧ snd r !! i = Some (annotations e)).
Proof.
  cbn zeta. rewrite get_video_ids_and_annotations_candidates. cbn [fst snd].
  unfold candidates. split; [by rewrite !length_fmap|]. split; [|split].
  - rewrite <- list_fmap_compose.
    change (fst ∘ (λ kv : string * VideoEntry, (kv.1, annotations kv.2)))
      with (fst : string * VideoEntry → string).
    apply fmap_sublist, sublist_filter.
  - intros i vid a. rewrite !list_lookup_fmap.
    destruct (filter _ (database data) !! i) as [[vid' e]|] eqn:Hi; [|done].
    simpl. intros [= <-] [= <-].
    apply list_elem_of_lookup_2, list_elem_of_filter in Hi as [Hs Hin].
    by exists e.
  - intros vid e Hin Hs.
    assert ((vid, e) ∈ filter (λ kv : string * VideoEntry, subset kv.2 = subset')
                          (database data)) as Hf
      by (by apply list_elem_of_filter).
    apply list_elem_of_lookup_1 in Hf as [i Hi]. exists i.
    by rewrite !list_lookup_fmap, Hi.
Qed.

Section make_dataset_errors.
Context (w : World) (root_path : path) (data : AnnotationData) (subset' : string).

(** The turn of the loop for a video whose label is not in the vocabulary. *)
Lemma make_dataset_step_unknown dataset i c l :
  (5 ≤ length (candidates data subset'))%nat →
  candidates data subset' !! i = Some c →
  ann_label (snd c) = Some l → l ∉ labels data →
  make_dataset_step w root_path (get_class_labels data)
    (fst <$> candidates data subset') (snd <$> candidates data subset')
    (Z.of_nat (length (candidates data subset'))) dataset i = Raise KeyError.
Proof.
  intros Hn Hc Hl Hunknown. unfold make_dataset_step.
  assert (Z.of_nat (length (candidates data subset')) `div` 5 ≠ 0) as Hdiv.
  { pose proof (Z.div_le_lower_bound
                  (Z.of_nat (length (candidates data subset'))) 5 1). lia. }
  rewrite (bool_decide_false _ Hdiv), bind_Ok.
  rewrite (py_getitem_nat _ _ (fst c)) by (by rewrite list_lookup_fmap, Hc).
  rewrite bind_Ok.
  rewrite (py_getitem_nat _ _ (snd c)) by (by rewrite list_lookup_fmap, Hc).
  rewrite bind_Ok, Hl. unfold dict_getitem.
  assert (dict_get (get_class_labels data) l = None) as ->; [|done].
  apply dict_get_None. rewrite get_class_labels_fold. by rewrite class_labels_keys.
Qed.

Lemma make_dataset_loop_unknown (m j : nat) dataset :
  (5 ≤ length (candidates data subset'))%nat →
  (j + m)%nat = length (candidates data subset') →
  (∃ c l, c ∈ drop j (candidates data subset') ∧
          ann_label (snd c) = Some l ∧ l ∉ labels data) →
  for_each
    (make_dataset_step w root_path (get_class_labels data)
       (fst <$> candidates data subset') (snd <$> candidates data subset')
       (Z.of_nat (length (candidates data subset'))))
    (seq j m) dataset = Raise KeyError.
Proof.
  intros Hn. revert j dataset.
  induction m as [|m IH]; intros j dataset Hj (c & l & Hin & Hl & Hunknown).
  - rewrite drop_ge in Hin by lia. by apply elem_of_nil in Hin.
  - destruct (lookup_lt_is_Some_2 (candidates data subset') j) as [cj Hcj]; [lia|].
    rewrite (drop_S _ _ _ Hcj) in Hin. cbn [seq for_each].
    assert ((∀ l', ann_label (snd cj) = Some l' → l' ∈ labels data) →
            for_each
              (make_dataset_step w root_path (get_class_labels data)
                 (fst <$> candidates data subset') (snd <$> candidates data subset')
                 (Z.of_nat (length (candidates data subset'))))
              (seq (S j) m)
              (dataset ++ filter (retained w)
                            [candidate_sample root_path (get_class_labels data) cj])
              = Raise KeyError) as Hrest.
    { intros Hknown. apply IH; [lia|].
      apply elem_of_cons in Hin as [->|Hin]; [|by exists c, l].
      destruct Hunknown. by apply Hknown. }
    destruct (ann_label (snd cj)) as [lj|] eqn:Hlj.
    + destruct (decide (lj ∈ labels data)) as [Hknown|Hbad].
      * rewrite (make_dataset_step_many w root_path data subset' dataset j cj Hn Hcj),
          bind_Ok.
        -- apply Hrest. by intros l' [= <-].
        -- rewrite Hlj. by intros l' [= <-].
      * by rewrite (make_dataset_step_unknown dataset j cj lj Hn Hcj Hlj Hbad).
    + rewrite (make_dataset_step_many w root_path data subset' dataset j cj Hn Hcj),
        bind_Ok.
      * apply Hrest. by intros l' [=].
      * rewrite Hlj. by intros l' [=].
Qed.
End make_dataset_errors.

(** X7.  When the annotation file loads and the subset has at least five
    videos, one of which carries a label that is not in the vocabulary,
    [make_dataset] raises KeyError, whether or not the archive of that
    video exists. *)
Theorem make_dataset_unknown_label (w : World) (root_path annotation_path : path)
    (subset' : string) (data : AnnotationData) (c : string * Annotation)
    (l : string) :
  load_annotation_data w annotation_path = Ok data →
  (5 ≤ length (candidates data subset'))%nat →
  c ∈ candidates data subset' →
  ann_label (snd c) = Some l →
  l ∉ labels data →
  make_dataset w root_path annotation_path subset' = Raise KeyError.
Proof.
  intros Hload Hn Hc Hl Hunknown.
  rewrite (make_dataset_unfold _ _ _ _ _ Hload).
  rewrite (make_dataset_loop_unknown w root_path data subset'
             (length (candidates data subset')) 0 [] Hn); [done|done|].
  by exists c, l.
Qed.

(** The statement of X7 at the annotation file whose video "v4" is labelled
    "swim". *)
Lemma make_dataset_unknown_label_witness :
  make_dataset Examples.unknown_world ["root"]%string ["ann.json"]%string "training"
    = Raise KeyError.
Proof.
  apply (make_dataset_unknown_label Examples.unknown_world ["root"]%string
           ["ann.json"]%string "training" Examples.annotations_unknown
           ("v4"%string, {| ann_label := Some "swim"%string; ann_segment := (0, 8) |})
           "swim"%string eq_refl).
  - vm_compute. lia.
  - vm_compute. do 3 apply list_elem_of_further. apply list_elem_of_here.
  - reflexivity.
  - cbn [labels Examples.annotations_unknown].
    apply (bool_decide_unpack (_ ∉ _)). vm_compute. exact I.
Defined.

(** What [make_dataset] returns when it returns. *)
Lemma make_dataset_value (w : World) (root_path annotation_path : path)
    (subset' : string) (data : AnnotationData) :
  load_annotation_data w annotation_path = Ok data →
  (length (candidates data subset') = 0 ∨ 5 ≤ length (candidates data subset'))%nat →
  Forall (λ c, ∀ l, ann_label (snd c) = Some l → l ∈ labels data)
         (candidates data subset') →
  make_dataset w root_path annotation_path subset'
    = Ok (filter (retained w)
            (candidate_sample root_path (get_class_labels data)
               <$> candidates data subset'),
          make_idx_to_class (get_class_labels data)).
Proof.
  intros Hload Hn Hlabels. rewrite (make_dataset_unfold _ _ _ _ _ Hload).
  destruct Hn as [Hn|Hn].
  - destruct (candidates data subset'); [done|discriminate Hn].
  - rewrite (make_dataset_loop_many w root_path data subset'
               (length (candidates data subset')) 0 []); [done|exact Hn| |done].
    intros c l Hc Hl. rewrite Forall_forall in Hlabels. by apply (Hlabels c Hc).
Qed.




(** X9.  When [make_dataset] returns, the retained samples come in the
    order of the database: their video ids are a sublist of the ids of the
    videos of the subset, so there are at most as many samples as videos;
    and the frame indices of each are the integers of its segment, from the
    start up to, and without, the end. *)
Theorem make_dataset_order_and_frames (w : World)
    (root_path annotation_path : path) (subset' : string) (data : AnnotationData) :
  load_annotation_data w annotation_path = Ok data →
  (length (candidates data subset') = 0 ∨ 5 ≤ length (candidates data subset'))%nat →
  Forall (λ c, ∀ l, ann_label (snd c) = Some l → l ∈ labels data)
         (candidates data subset') →
  ∃ dataset idx_to_class,
    make_dataset w root_path annotation_path subset' = Ok (dataset, idx_to_class) ∧
    (video_id <$> dataset) `sublist_of` (fst <$> candidates data subset') ∧
    (length dataset ≤ length (fst (get_video_ids_and_annotations data subset')))%nat ∧
    Forall (λ s, frame_indices s
                 = seqZ (fst (segment s)) (snd (segment s) - fst (segment s)))
           dataset.
Proof.
  intros Hload Hn Hlabels. eexists _, _. split; [by apply make_dataset_value|].
  assert ((video_id <$> filter (retained w)
             (candidate_sample root_path (get_class_labels data)
                <$> candidates data subset'))
          `sublist_of` (fst <$> candidates data subset')) as Hsub.
  { etrans; [apply fmap_sublist, sublist_filter|].
    by rewrite <- list_fmap_compose. }
  split; [exact Hsub|]. split.
  - rewrite get_video_ids_and_annotations_candidates. cbn [fst].
    apply sublist_length in Hsub. by rewrite length_fmap in Hsub.
  - apply Forall_forall. intros s [_ Hs]%list_elem_of_filter.
    apply list_elem_of_fmap in Hs as (c & -> & Hc).
    unfold candidate_sample. cbn [frame_indices segment]. apply py_range2_seqZ.
Qed.

(** The statement of X9 at the annotation file of six videos. *)
Lemma make_dataset_order_and_frames_witness :
  ∃ dataset idx_to_class,
    make_dataset Examples.indexer_world ["root"]%string ["ann.json"]%string "training"
      = Ok (dataset, idx_to_class) ∧
    (video_id <$> dataset) `sublist_of` ["v0"; "v1"; "v2"; "v4"; "v5"]%string.
Proof.
  destruct (make_dataset_order_and_frames Examples.indexer_world ["root"]%string
              ["ann.json"]%string "training" Examples.annotations6)
    as (dataset & names & Hmake & Hsub & _).
  - reflexivity.
  - right. vm_compute. lia.
  - vm_compute (candidates _ _).
    repeat (apply Forall_cons; split;
            [intros l [= <-]; vm_compute; repeat constructor|]).
    apply Forall_nil_2.
  - exists dataset, names. split; [exact Hmake | exact Hsub].
Defined.

(** ** The temporal windower *)

(** X10.  With a stride of 0, [temporal_sliding_window] on a dataset that
    holds at least one sample raises the ValueError of [range], whatever the
    duration. *)
Theorem temporal_sliding_window_zero_stride (self : VideoDataset) (D : Z) :
  data self ≠ [] →
  temporal_sliding_window self D 0 = Raise ValueError.
Proof.
  intros Hne. unfold temporal_sliding_window.
  destruct (data self) as [|x rest]; [done|].
  rewrite mapM_result_cons. unfold sliding_windows at 1.
  by destruct (segment x).
Qed.

(** The statement of X10 at the dataset of one sample. *)
Lemma temporal_sliding_window_zero_stride_witness :
  temporal_sliding_window Examples.dataset10 4 0 = Raise ValueError.
Proof.
  apply (temporal_sliding_window_zero_stride Examples.dataset10 4). discriminate.
Defined.

Lemma concat_nils {A} (ls : list (list A)) :
  Forall (λ l, l = []) ls → concat ls = [].
Proof. induction 1 as [|l0 ls0 Hl _ IH]; [done|]. by subst. Qed.

(** X11.  With a negative stride, [temporal_sliding_window] returns and
    leaves the dataset with an empty stored list, provided every segment
    has its start at or before its end: no window is cut from any sample. *)
Theorem temporal_sliding_window_negative_stride (self : VideoDataset) (D S : Z) :
  S < 0 →
  Forall (λ x, fst (segment x) ≤ snd (segment x)) (data self) →
  ∃ out, temporal_sliding_window self D S = Ok out ∧ data out = [].
Proof.
  intros HS Hseg. unfold temporal_sliding_window.
  destruct (mapM_result_Forall2 (sliding_windows D S) (λ _ ws, ws = []) (data self))
    as (wss & -> & HF).
  { intros x Hx. rewrite Forall_forall in Hseg. specialize (Hseg x Hx).
    exists []. split; [|done]. unfold sliding_windows.
    destruct (segment x) as [t_begin t_end]. simpl in Hseg.
    unfold py_range, range_length.
    rewrite bool_decide_false by lia. rewrite bool_decide_false by lia.
    rewrite bool_decide_true by lia. rewrite bool_decide_false by lia. done. }
  rewrite bind_Ok. eexists. split; [done|]. cbn [set_data data].
  apply concat_nils. clear -HF. induction HF; by constructor.
Qed.

(** The statement of X11 at the dataset of one sample with segment
    [0, 10). *)
Lemma temporal_sliding_window_negative_stride_witness :
  ∃ out, temporal_sliding_window Examples.dataset10 4 (-4) = Ok out ∧ data out = [].
Proof.
  apply (temporal_sliding_window_negative_stride Examples.dataset10 4 (-4)); [lia|].
  repeat constructor. simpl. lia.
Defined.

Lemma elem_of_concat {A} (x : A) (l : list A) (ls : list (list A)) :
  l ∈ ls → x ∈ l → x ∈ concat ls.
Proof.
  intros Hl Hx. induction ls as [|l' ls' IH]; [by apply elem_of_nil in Hl|].
  simpl. apply elem_of_app. apply elem_of_cons in Hl as [->|Hl]; auto.
Qed.

(** X12.  When the stride is positive and not larger than the duration,
    the windows leave no gap: after [temporal_sliding_window], every frame
    index of the segment of a stored sample is a frame index of a window
    that carries the video, the id and the label of that sample. *)
Theorem temporal_sliding_window_covers (self : VideoDataset) (D S : Z)
    (x : Sample) (f : Z) :
  0 < S → S ≤ D →
  x ∈ data self →
  fst (segment x) ≤ f < snd (segment x) →
  ∃ out w,
    temporal_sliding_window self D S = Ok out ∧
    w ∈ data out ∧ f ∈ frame_indices w ∧
    video w = video x ∧ video_id w = video_id x ∧ label w = label x.
Proof.
  intros HS HD Hx Hf. unfold temporal_sliding_window.
  destruct (mapM_result_Forall2 (sliding_windows D S)
              (λ x ws,
                 (∀ k w, ws !! k = Some w → is_window_of D S x k w) ∧
                 (∀ k : nat, fst (segment x) + Z.of_nat k * S < snd (segment x) →
                             is_Some (ws !! k)))
              (data self)) as (wss & -> & HF).
  { intros y _. destruct (sliding_windows_pos D S y HS) as (ws & Hws & H1 & H2).
    by exists ws. }
  apply list_elem_of_lookup_1 in Hx as [i Hi].
  destruct (Forall2_lookup_l _ _ _ _ _ HF Hi) as (ws & Hws & Hwin & Hall).
  set (k := Z.to_nat ((f - fst (segment x)) `div` S)).
  pose proof (Z.mul_div_le (f - fst (segment x)) S HS) as Hlo.
  pose proof (Z.mul_succ_div_gt (f - fst (segment x)) S HS) as Hhi.
  assert (0 ≤ (f - fst (segment x)) `div` S) as Hk by (apply Z.div_pos; lia).
  assert (Z.of_nat k = (f - fst (segment x)) `div` S) as Hkz by (unfold k; lia).
  destruct (Hall k) as [w Hw]; [nia|].
  destruct (Hwin k w Hw) as (Hstart & Hsegw & Hfi & Hv & Hid & Hl).
  eexists _, w. split; [done|]. cbn [set_data data].
  split; [|split; [|done]].
  - eapply elem_of_concat; by eapply list_elem_of_lookup_2.
  - rewrite Hfi. apply elem_of_seqZ. nia.
Qed.

(** The statement of X12 at the sample with segment [0, 10), duration 4 and
    stride 3, for the frame 9. *)
Lemma temporal_sliding_window_covers_witness :
  ∃ out w,
    temporal_sliding_window Examples.dataset10 4 3 = Ok out ∧
    w ∈ data out ∧ 9 ∈ frame_indices w.
Proof.
  destruct (temporal_sliding_window_covers Examples.dataset10 4 3
              Examples.sample10 9)
    as (out & w & Hout & Hw & Hf & _); [lia | lia | | |].
  - apply list_elem_of_here.
  - simpl. lia.
  - by exists out, w.
Defined.

Lemma sliding_windows_of_window (D S : Z) (x : Sample) (k : nat) (w : Sample) :
  0 < D → D ≤ S → is_window_of D S x k w → sliding_windows D S w = Ok [w].
Proof.
  intros HD HS (Hstart & Hseg & Hfi & _).
  destruct w as [v seg fi vid lab]. cbn [segment frame_indices] in *.
  set (start := fst (segment x) + Z.of_nat k * S) in *.
  set (stop := Z.min (start + D) (snd (segment x))) in *.
  assert (start < stop ≤ start + D) as Hstop by (unfold stop; lia).
  unfold sliding_windows. cbn [segment video video_id label]. rewrite Hseg.
  unfold py_range, range_length.
  rewrite bool_decide_false by lia. rewrite bool_decide_true by lia.
  rewrite bool_decide_true by lia.
  rewrite Z.div_small by lia. rewrite bind_Ok.
  change (seq 0 (Z.to_nat (0 + 1))) with [0%nat]. rewrite !list_fmap_singleton.
  cbn [fst snd].
  replace (start + Z.of_nat 0 * S) with start by lia.
  replace (Z.min (start + D) stop) with stop by lia.
  by rewrite py_range2_seqZ, Hfi.
Qed.

Lemma concat_singletons {A} (l : list A) : concat ((λ a, [a]) <$> l) = l.
Proof. induction l as [|a l IH]; [done|]. simpl. by f_equal. Qed.

(** X13.  When the duration is positive and not larger than the stride,
    the windows do not overlap and cutting them again changes nothing:
    [temporal_sliding_window] applied a second time with the same duration
    and stride returns the dataset it was given. *)
Theorem temporal_sliding_window_twice (self : VideoDataset) (D S : Z) :
  0 < D → D ≤ S →
  ∃ out,
    temporal_sliding_window self D S = Ok out ∧
    temporal_sliding_window out D S = Ok out.
Proof.
  intros HD HS. unfold temporal_sliding_window at 1.
  destruct (mapM_result_Forall2 (sliding_windows D S)
              (λ x ws, ∀ k w, ws !! k = Some w → is_window_of D S x k w)
              (data self)) as (wss & -> & HF).
  { intros y _. destruct (sliding_windows_pos D S y) as (ws & Hws & H1 & _); [lia|].
    by exists ws. }
  eexists. split; [done|].
  unfold temporal_sliding_window. cbn [set_data data].
  rewrite (mapM_result_ok _ (λ w, [w])).
  - rewrite bind_Ok, concat_singletons. done.
  - apply Forall_forall. intros w Hw.
    assert (∃ x k, is_window_of D S x k w) as (x & k & Hwin).
    { clear -HF Hw. induction HF as [|x ws xs wss Hx _ IH]; simpl in Hw.
      - by apply elem_of_nil in Hw.
      - apply elem_of_app in Hw as [Hw|Hw]; [|by apply IH].
        apply list_elem_of_lookup_1 in Hw as [k Hk]. exists x, k. by apply Hx. }
    by eapply sliding_windows_of_window.
Qed.

(** The statement of X13 at the sample with segment [0, 10), duration 3 and
    stride 4. *)
Lemma temporal_sliding_window_twice_witness :
  ∃ out,
    temporal_sliding_window Examples.dataset10 3 4 = Ok out ∧
    temporal_sliding_window out 3 4 = Ok out.
Proof.
  apply (temporal_sliding_window_twice Examples.dataset10 3 4); lia.
Defined.

(** ** The sample assembler *)

(** X14.  A negative index counts from the end of the stored list: for
    [-len <= index < 0], [self[index]] is [self[len + index]], result and
    effect on the dataset alike. *)
Theorem getitem_negative_index (self : VideoDataset) (index : Z) :
  - Z.of_nat (length (data self)) ≤ index < 0 →
  __getitem__ self index = __getitem__ self (Z.of_nat (length (data self)) + index).
Proof.
  intros Hi. unfold __getitem__.
  assert (py_position (length (data self)) index
          = py_position (length (data self)) (Z.of_nat (length (data self)) + index))
    as ->; [|done].
  unfold py_position.
  rewrite (bool_decide_false (0 ≤ index)) by lia.
  rewrite (bool_decide_true (- _ ≤ index)) by lia.
  rewrite (bool_decide_true (0 ≤ _ + index)) by lia.
  rewrite (bool_decide_true (_ + index < _)) by lia. done.
Qed.

(** The statement of X14 at the dataset of one sample and the index -1. *)
Lemma getitem_negative_index_witness :
  __getitem__ (Examples.dataset0 false None None) (-1)
    = __getitem__ (Examples.dataset0 false None None) 0.
Proof.
  apply (getitem_negative_index (Examples.dataset0 false None None) (-1)).
  simpl. lia.
Defined.

(** X15.  An index at or beyond the length of the stored list, or below
    minus the length, makes [self[index]] raise IndexError before anything
    is loaded; the dataset is as before. *)
Theorem getitem_index_out_of_range (self : VideoDataset) (index : Z) :
  Z.of_nat (length (data self)) ≤ index ∨ index < - Z.of_nat (length (data self)) →
  __getitem__ self index = (Raise IndexError, self).
Proof.
  intros Hi. unfold __getitem__.
  assert (py_position (length (data self)) index = None) as ->; [|done].
  unfold py_position. destruct Hi.
  - rewrite bool_decide_true by lia. by rewrite bool_decide_false by lia.
  - rewrite bool_decide_false by lia. by rewrite bool_decide_false by lia.
Qed.

(** The statement of X15 at the dataset of one sample and the index 1. *)
Lemma getitem_index_out_of_range_witness :
  __getitem__ (Examples.dataset0 false None None) 1
    = (Raise IndexError, Examples.dataset0 false None None).
Proof.
  apply (getitem_index_out_of_range (Examples.dataset0 false None None) 1).
  left. simpl. lia.
Defined.

(** X16.  When the frame indices [__getitem__] works on are empty (the
    stored sample has none and there is no temporal transform, or the
    transform returns an empty sequence), [self[index]] raises the
    IndexError of [frame_indices[0]]; nothing is loaded and the dataset is
    as before. *)
Theorem getitem_no_frame_index (self : VideoDataset) (index : nat) (x : Sample) :
  data self !! index = Some x →
  transformed_frame_indices self x = Flat [] ∨
  transformed_frame_indices self x = Nested [] →
  __getitem__ self (Z.of_nat index) = (Raise IndexError, self).
Proof.
  intros Hx Hempty. unfold __getitem__.
  assert (py_position (length (data self)) (Z.of_nat index) = Some index) as ->.
  { apply lookup_lt_Some in Hx. unfold py_position.
    rewrite bool_decide_true by lia. rewrite bool_decide_true by lia.
    by rewrite Nat2Z.id. }
  simpl. rewrite Hx. simpl. fold (transformed_frame_indices self x).
  by destruct Hempty as [-> | ->].
Qed.

(** The statement of X16 at a stored sample with the empty segment
    [3, 3). *)
Lemma getitem_no_frame_index_witness :
  let x := {| video := Examples.clip_path; segment := (3, 3);
              frame_indices := py_range2 3 3; video_id := "v0"; label := 0 |} in
  let self := set_data (Examples.dataset0 false None None) [x] in
  __getitem__ self 0 = (Raise IndexError, self).
Proof.
  cbn zeta.
  apply (getitem_no_frame_index
           (set_data (Examples.dataset0 false None None)
              [{| video := Examples.clip_path; segment := (3, 3);
                  frame_indices := py_range2 3 3; video_id := "v0"; label := 0 |}])
           0 _ eq_refl).
  left. reflexivity.
Defined.

Lemma loading_randomizes self p frame_indices clip :
  fst (loading self p frame_indices) = Ok clip →
  spatial_transform (snd (loading self p frame_indices))
    = randomize_parameters <$> spatial_transform self.
Proof.
  unfold loading. destruct (loader self p frame_indices); [|done].
  destruct (spatial_transform self) eqn:Hst; [done|].
  cbn [fst snd]. by rewrite Hst.
Qed.

(** The loop over the windows when it ends well: one clip and one target
    per window, the spatial transform re-randomized once per window, no
    window empty, and the stored sample [r] left with the segment of the
    last window. *)
Lemma getitem_windows_success p r x windows :
  ∀ self clips targets cs ts self',
    getitem_windows self p r x windows clips targets = (Ok (cs, ts), self') →
    length cs = (length clips + length windows)%nat ∧
    length ts = (length targets + length windows)%nat ∧
    spatial_transform self'
      = Nat.iter (length windows) (fmap randomize_parameters) (spatial_transform self) ∧
    Forall (λ win, ∃ s, window_segment win = Ok s) windows ∧
    data self' = match last windows with
                 | None => data self
                 | Some win =>
                     match window_segment win with
                     | Ok s => <[r := set_segment x s]> (data self)
                     | Raise _ => data self
                     end
                 end.
Proof.
  induction windows as [|win rest IH]; intros self clips targets cs ts self' Hrun.
  - simpl in Hrun. injection Hrun as <- <- <-. rewrite !Nat.add_0_r.
    repeat split. apply Forall_nil_2.
  - rewrite getitem_windows_cons in Hrun.
    pose proof (loading_frame self p win) as (Hd & _).
    pose proof (loading_randomizes self p win) as Hst.
    destruct (loading self p win) as [[clip|e] self1]; [|done].
    cbn [fst snd] in *. specialize (Hst clip eq_refl).
    destruct (window_segment win) as [s|e] eqn:Hseg; [|done].
    apply IH in Hrun as (Hcs & Hts & Hst' & Hall & Hdata).
    cbn [set_data spatial_transform data] in *.
    rewrite !length_app in *. cbn [length] in *.
    split; [lia|]. split; [lia|]. split; [|split].
    + by rewrite Nat.iter_succ_r, <- Hst.
    + apply Forall_cons. split; [by exists s|done].
    + rewrite Hdata, Hd. destruct rest as [|win' rest'].
      * cbn [last]. by rewrite Hseg.
      * change (last (win :: win' :: rest')) with (last (win' :: rest')).
        destruct (last (win' :: rest')) as [w'|] eqn:Hlast.
        2:{ by apply last_None in Hlast. }
        rewrite Forall_forall in Hall.
        destruct (Hall w') as [s' ->]; [by apply last_Some_elem_of|].
        by rewrite list_insert_insert_eq.
Qed.

(** X17.  A call [self[index]] that returns re-randomizes the parameters of
    the spatial transform once per clip it returns: once for a single
    clip, and as many times as there are clips for a list of clips. *)
Theorem getitem_randomizes_per_clip (self : VideoDataset) (index : Z)
    (clips : clip_entry) (targets : target_entry) :
  fst (__getitem__ self index) = Ok (clips, targets) →
  spatial_transform (snd (__getitem__ self index))
    = Nat.iter (match clips with One _ => 1 | Many cs => length cs end)
               (fmap randomize_parameters) (spatial_transform self).
Proof.
  unfold __getitem__.
  destruct (py_position _ index ≫= _) as [[r x]|]; [|done].
  destruct (match temporal_transform self with Some f => _ | None => _ end)
    as [[|i l]|[|win rest]]; try done.
  - pose proof (loading_randomizes self (video x) (i :: l)) as Hst.
    destruct (loading self (video x) (i :: l)) as [[clip|e] self']; [|done].
    cbn [fst snd] in *. intros [= <- _]. by eapply Hst.
  - pose proof (getitem_windows_success (video x) r x (win :: rest) self [] []) as Hwin.
    destruct (getitem_windows self (video x) r x (win :: rest) [] [])
      as [[[cs ts]|e] self']; [|done].
    cbn [fst snd]. intros [= <- _].
    destruct (Hwin cs ts self' eq_refl) as (Hcs & _ & Hst & _).
    by rewrite Hst, Hcs.
Qed.

(** The statement of X17 at the two-window call: the parameter of the
    transform, a counter that [randomize_parameters] advances, is 2. *)
Lemma getitem_randomizes_per_clip_witness :
  st_params <$> spatial_transform
    (snd (__getitem__ (Examples.dataset0 false (Some Examples.two_windows) None) 0))
    = Some 2%nat.
Proof.
  assert (∃ clips targets,
             fst (__getitem__ (Examples.dataset0 false (Some Examples.two_windows) None) 0)
             = Ok (Many clips, targets)) as (clips & targets & Hrun)
    by (by eexists _, _).
  rewrite (getitem_randomizes_per_clip _ 0 _ _ Hrun).
  assert (length clips = 2%nat) as ->; [|reflexivity].
  vm_compute in Hrun. injection Hrun as <- _. reflexivity.
Defined.

(** X18.  When [self[index]] returns a list of clips, there are as many
    clips as windows and as many targets as clips, and the call has
    written the stored list: the segment read afterwards from the stored
    sample at [index] is that of the last window, from its first frame
    index to its last one plus 1, whatever it was before; the other fields
    of that sample and the other stored samples are as before. *)
Theorem getitem_windows_result (self : VideoDataset) (index : nat) (x : Sample)
    (windows : list (list Z)) (clips : list tensor) (targets : list pytarget) :
  data self !! index = Some x →
  transformed_frame_indices self x = Nested windows →
  fst (__getitem__ self (Z.of_nat index)) = Ok (Many clips, ManyT targets) →
  length clips = length windows ∧
  length targets = length clips ∧
  ∃ win first last_ x',
    last windows = Some win ∧
    head win = Some first ∧ last win = Some last_ ∧
    data (snd (__getitem__ self (Z.of_nat index))) !! index = Some x' ∧
    segment x' = (first, last_ + 1) ∧
    same_but_segment x x' ∧
    ∀ k, k ≠ index →
      data (snd (__getitem__ self (Z.of_nat index))) !! k = data self !! k.
Proof.
  intros Hx Htf. unfold __getitem__.
  assert (py_position (length (data self)) (Z.of_nat index) = Some index) as ->.
  { apply lookup_lt_Some in Hx. unfold py_position.
    rewrite bool_decide_true by lia. rewrite bool_decide_true by lia.
    by rewrite Nat2Z.id. }
  simpl. rewrite Hx. simpl. fold (transformed_frame_indices self x). rewrite Htf.
  destruct windows as [|win0 rest]; [done|].
  pose proof (getitem_windows_success (video x) index x (win0 :: rest) self [] [])
    as Hwin.
  destruct (getitem_windows self (video x) index x (win0 :: rest) [] [])
    as [[[cs ts]|e] self']; [|done].
  cbn [fst snd]. intros [= <- <-].
  destruct (Hwin cs ts self' eq_refl) as (Hcs & Hts & _ & Hall & Hdata).
  simpl in Hcs, Hts. split; [done|]. split; [lia|].
  destruct (last (win0 :: rest)) as [win|] eqn:Hlast.
  2:{ by apply last_None in Hlast. }
  assert (∃ s, window_segment win = Ok s) as [s Hs].
  { rewrite Forall_forall in Hall. apply Hall. by apply last_Some_elem_of. }
  rewrite Hs in Hdata. unfold window_segment in Hs.
  destruct win as [|first win']; [done|].
  exists (first :: win'), first.
  destruct (py_getitem (first :: win') (-1)) as [last_|e] eqn:Hl; [|done].
  exists last_, (set_segment x s). split; [done|]. split; [done|]. split.
  { unfold py_getitem, py_position in Hl.
    rewrite bool_decide_false in Hl by lia.
    rewrite bool_decide_true in Hl by (simpl; lia).
    rewrite last_lookup.
    replace (Z.to_nat (Z.of_nat (length (first :: win')) + -1))
      with (pred (length (first :: win'))) in Hl by (simpl; lia).
    by destruct ((first :: win') !! pred (length (first :: win'))); simplify_eq. }
  change (py_getitem (first :: win') 0) with (Ok first) in Hs.
  rewrite bind_Ok, bind_Ok in Hs. injection Hs as <-.
  rewrite Hdata. split; [|split; [done|split; [done|]]].
  - apply list_lookup_insert_eq. by eapply lookup_lt_Some.
  - intros k Hk. by apply list_lookup_insert_ne.
Qed.

(** The statement of X18 at the two-window call on the one-sample dataset,
    whose stored segment is [0, 4) before the call. *)
Lemma getitem_windows_result_witness :
  segment <$> data (Examples.dataset0 false (Some Examples.two_windows) None) !! 0%nat
    = Some (0, 4) ∧
  segment <$>
    data (snd (__getitem__ (Examples.dataset0 false (Some Examples.two_windows) None) 0))
      !! 0%nat
    = Some (2, 4).
Proof.
  split; [reflexivity|].
  assert (∃ clips targets,
             fst (__getitem__ (Examples.dataset0 false (Some Examples.two_windows) None)
                    (Z.of_nat 0))
             = Ok (Many clips, ManyT targets)) as (clips & targets & Hrun)
    by (by eexists _, _).
  destruct (getitem_windows_result
              (Examples.dataset0 false (Some Examples.two_windows) None) 0
              Examples.sample0 [[0; 1]; [2; 3]] clips targets eq_refl eq_refl Hrun)
    as (_ & _ & win & first & last_ & x' & Hlast & Hhead & Hl & Hx' & Hseg & _).
  injection Hlast as <-. injection Hhead as <-. injection Hl as <-.
  change (Z.of_nat 0) with 0 in Hx'. rewrite Hx'. simpl. rewrite Hseg. reflexivity.
Defined.

Lemma loading_without_spatial_transform self p frame_indices :
  spatial_transform self = None →
  ∃ e, fst (loading self p frame_indices) = Raise e.
Proof.
  intros Hnone. unfold loading. rewrite Hnone.
  destruct (loader self p frame_indices) as [[|im images]|e]; by eexists.
Qed.

(** X19.  A dataset with no spatial transform, which is what the
    constructor sets by default, never returns a sample: the loader yields
    images, [torch.stack] takes tensors only, and [self[index]] raises for
    every index. *)
Theorem getitem_without_spatial_transform (self : VideoDataset) (index : Z) :
  spatial_transform self = None →
  ∃ e, fst (__getitem__ self index) = Raise e.
Proof.
  intros Hnone. unfold __getitem__.
  destruct (py_position _ index ≫= _) as [[r x]|]; [|by eexists].
  destruct (match temporal_transform self with Some f => _ | None => _ end)
    as [[|i l]|[|win rest]]; try by eexists.
  - destruct (loading_without_spatial_transform self (video x) (i :: l) Hnone)
      as [e He].
    destruct (loading self (video x) (i :: l)) as [[clip|e'] self']; [done|].
    by eexists.
  - rewrite getitem_windows_cons.
    destruct (loading_without_spatial_transform self (video x) win Hnone)
      as [e He].
    destruct (loading self (video x) win) as [[clip|e'] self']; [done|].
    by eexists.
Qed.

(** The statement of X19 at the one-sample dataset stripped of its spatial
    transform, over a frame collection that stays readable: the call
    raises the TypeError of [torch.stack]. *)
Lemma getitem_without_spatial_transform_witness :
  fst (__getitem__
         (set_spatial_transform (Examples.dataset0 false None None) None) 0)
    = Raise TypeError.
Proof.
  destruct (getitem_without_spatial_transform
              (set_spatial_transform (Examples.dataset0 false None None) None) 0
              eq_refl) as [e He].
  rewrite He. vm_compute in He. injection He as <-. reflexivity.
Defined.

Lemma mapM_frame_tensor_inv (clip : list frame) (ts : list tensor) :
  mapM frame_tensor clip = Ok ts → clip = FTensor <$> ts.
Proof.
  revert ts. induction clip as [|f clip IH]; intros ts.
  - by intros [= <-].
  - rewrite mapM_result_cons. destruct f as [im|t]; [done|]. simpl.
    destruct (mapM frame_tensor clip) as [ts'|]; [|done].
    intros [= <-]. by rewrite (IH ts' eq_refl).
Qed.

Lemma stack_tensors_inv (ts : list tensor) (stacked : tensor) :
  stack_tensors ts = Ok stacked →
  ∃ s, ts ≠ [] ∧ Forall (λ t, shape t = s) ts ∧
       shape stacked = length ts :: s ∧
       ∀ k t idx, ts !! k = Some t → data_at stacked (k :: idx) = data_at t idx.
Proof.
  destruct ts as [|t0 ts']; [done|]. unfold stack_tensors.
  destruct (forallb _ (t0 :: ts')) eqn:Hall; [|done].
  intros [= <-]. exists (shape t0). split; [done|]. split; [|split; [done|]].
  - apply Is_true_true_2, forallb_True in Hall.
    eapply Forall_impl; [exact Hall|]. intros t Ht. by apply bool_decide_unpack in Ht.
  - intros k t idx Hk. simpl. by rewrite Hk.
Qed.

(** X20.  A clip that [loading] returns has four axes (channel, time,
    height, width): the loader returned at least one image, the spatial
    transform turned every image into a tensor of one shape (channel,
    height, width), the time axis counts the images the loader returned,
    which may be fewer than the frame indices requested, and the scalar at
    (c, t, h, x) is the scalar at (c, h, x) of the tensor of image t. *)
Theorem loading_clip_layout (self : VideoDataset) (p : path)
    (frame_indices : list Z) (clip : tensor) :
  fst (loading self p frame_indices) = Ok clip →
  ∃ images st (C H W : nat),
    loader self p frame_indices = Ok images ∧ images ≠ [] ∧
    spatial_transform self = Some st ∧
    shape clip = [C; length images; H; W] ∧
    ∀ k im, images !! k = Some im →
      ∃ t, st_call st (st_randomize st (st_params st)) im = FTensor t ∧
           shape t = [C; H; W] ∧
           ∀ c h x, data_at clip [c; k; h; x] = data_at t [c; h; x].
Proof.
  unfold loading.
  destruct (loader self p frame_indices) as [images|e]; [|done].
  destruct (spatial_transform self) as [st|].
  2:{ destruct images; done. }
  cbn [fst randomize_parameters st_params st_call].
  set (call := st_call st (st_randomize st (st_params st))).
  unfold torch_stack.
  destruct (call <$> images) as [|f0 fs] eqn:Hclip; [done|].
  destruct (mapM frame_tensor (f0 :: fs)) as [ts|e] eqn:Hts; [|done].
  apply mapM_frame_tensor_inv in Hts. rewrite bind_Ok.
  destruct (stack_tensors ts) as [stacked|e] eqn:Hstack; [|done].
  apply stack_tensors_inv in Hstack as (s & Hne & Hshapes & Hs & Hdata).
  rewrite bind_Ok. unfold permute_1_0_2_3. rewrite Hs.
  destruct s as [|C [|H [|W [|? ?]]]]; try done.
  intros [= <-].
  assert (length ts = length images) as Hlen.
  { rewrite <- (length_fmap call images), Hclip, Hts. by rewrite length_fmap. }
  exists images, st, C, H, W. split; [done|]. split.
  { intros ->. done. }
  split; [done|]. split; [simpl; by rewrite Hlen|].
  intros k im Hk.
  assert ((call <$> images) !! k = Some (call im)) as Hcall
    by (by rewrite list_lookup_fmap, Hk).
  rewrite Hclip, Hts, list_lookup_fmap in Hcall.
  destruct (ts !! k) as [t|] eqn:Htk; [|done]. injection Hcall as Hcall.
  exists t. split; [done|]. split.
  - rewrite Forall_forall in Hshapes. apply Hshapes. by eapply list_elem_of_lookup_2.
  - intros c h x. simpl. by apply Hdata.
Qed.

(** The statement of X20 at an archive of two frames that stays readable:
    four frame indices are requested, the clip has two time steps. *)
Lemma loading_clip_layout_witness :
  let self :=
    {| data := [Examples.sample0]; class_names := [];
       spatial_transform := Some Examples.to_tensor;
       temporal_transform := None; target_transform := None;
       loader := run_video_loader (Examples.archive_world 2 false) |} in
  ∃ clip,
    fst (loading self Examples.clip_path [0; 1; 2; 3]) = Ok clip ∧
    ∃ C H W, shape clip = [C; 2; H; W]%nat.
Proof.
  cbn zeta.
  set (self :=
    {| data := [Examples.sample0]; class_names := [];
       spatial_transform := Some Examples.to_tensor;
       temporal_transform := None; target_transform := None;
       loader := run_video_loader (Examples.archive_world 2 false) |}).
  assert (∃ clip, fst (loading self Examples.clip_path [0; 1; 2; 3]) = Ok clip)
    as [clip Hclip] by (by eexists).
  exists clip. split; [exact Hclip|].
  destruct (loading_clip_layout self Examples.clip_path [0; 1; 2; 3] clip Hclip)
    as (images & st & C & H & W & Himages & _ & _ & Hshape & _).
  exists C, H, W. rewrite Hshape. vm_compute in Himages.
  injection Himages as <-. reflexivity.
Defined.



(** ** The batch collator *)


Lemma stack_tensors_mismatch (ts : list tensor) (c1 c2 : tensor) :
  c1 ∈ ts → c2 ∈ ts → shape c1 ≠ shape c2 →
  stack_tensors ts = Raise RuntimeError.
Proof.
  intros H1 H2 Hne. destruct ts as [|t0 ts']; [done|]. unfold stack_tensors.
  destruct (forallb _ (t0 :: ts')) eqn:Hall; [|done].
  apply Is_true_true_2, forallb_True in Hall. rewrite Forall_forall in Hall.
  destruct Hne.
  pose proof (Hall c1 H1) as E1. pose proof (Hall c2 H2) as E2.
  apply bool_decide_unpack in E1, E2. congruence.
Qed.

(** X23.  [collate_fn] raises the RuntimeError of [torch.stack] as soon as
    two clips of the batch differ in shape, on single-window samples and,
    after flattening, on multi-window samples, whatever the targets are,
    provided there is a target at all. *)
Theorem collate_fn_shape_mismatch :
  (∀ (items : list (tensor * pytarget)) (c1 c2 : tensor),
     c1 ∈ (fst <$> items) → c2 ∈ (fst <$> items) → shape c1 ≠ shape c2 →
     collate_fn (single_window <$> items) = Raise RuntimeError) ∧
  (∀ (items : list (list tensor * list pytarget)) (c1 c2 : tensor),
     c1 ∈ concat (fst <$> items) → c2 ∈ concat (fst <$> items) →
     shape c1 ≠ shape c2 →
     concat (snd <$> items) ≠ [] →
     collate_fn (multi_window <$> items) = Raise RuntimeError).
Proof.
  split.
  - intros items c1 c2 H1 H2 Hne.
    assert (items ≠ []) as Hitems by (intros ->; by apply elem_of_nil in H1).
    rewrite (collate_fn_single_window items Hitems).
    rewrite default_collate_clips_tensors
      by (intros Hnil; rewrite Hnil in H1; by apply elem_of_nil in H1).
    rewrite (stack_tensors_mismatch _ c1 c2 H1 H2 Hne).
    destruct items as [|[c0 t0] items']; [done|].
    rewrite !fmap_cons. change (py_getitem (OneT _ :: _) 0) with (Ok (OneT t0)).
    rewrite bind_Ok. by destruct t0.
  - intros items c1 c2 H1 H2 Hne Htargets.
    assert (items ≠ []) as Hitems by (intros ->; by apply elem_of_nil in H1).
    rewrite (collate_fn_multi_window items Hitems).
    rewrite default_collate_clips_tensors
      by (intros Hnil; rewrite Hnil in H1; by apply elem_of_nil in H1).
    rewrite (stack_tensors_mismatch _ c1 c2 H1 H2 Hne).
    destruct (concat (snd <$> items)) as [|t0 ts]; [done|].
    rewrite !fmap_cons. change (py_getitem (OneT _ :: _) 0) with (Ok (OneT t0)).
    rewrite bind_Ok. by destruct t0.
Qed.

(** The statement of X23 at two single-window samples whose clips have 2
    and 3 time steps. *)
Lemma collate_fn_shape_mismatch_witness :
  collate_fn
    [(One {| shape := [3; 2; 2; 2]%nat; data_at := λ _, 0 |}, OneT (TInt 0));
     (One {| shape := [3; 3; 2; 2]%nat; data_at := λ _, 0 |}, OneT (TInt 1))]
    = Raise RuntimeError.
Proof.
  apply (proj1 collate_fn_shape_mismatch
           [({| shape := [3; 2; 2; 2]%nat; data_at := λ _, 0 |}, TInt 0);
            ({| shape := [3; 3; 2; 2]%nat; data_at := λ _, 0 |}, TInt 1)]
           {| shape := [3; 2; 2; 2]%nat; data_at := λ _, 0 |}
           {| shape := [3; 3; 2; 2]%nat; data_at := λ _, 0 |}).
  - apply list_elem_of_here.
  - apply list_elem_of_further, list_elem_of_here.
  - discriminate.
Defined.

(** X24.  [collate_fn] raises when there is nothing to collate: ValueError
    on the empty batch, whose unzipping yields no clips and targets to
    unpack, and IndexError on a batch of multi-window samples that hold no
    target. *)
Theorem collate_fn_nothing_to_collate
    (items : list (list tensor * list pytarget)) :
  concat (snd <$> items) = [] →
  collate_fn (multi_window <$> items)
    = Raise (match items with [] => ValueError | _ => IndexError end).
Proof.
  intros Hnone. destruct items as [|it items']; [done|].
  rewrite collate_fn_multi_window by done. by rewrite Hnone.
Qed.

(** The statement of X24 at a batch of one multi-window sample with no
    window. *)
Lemma collate_fn_nothing_to_collate_witness :
  collate_fn [(Many [], ManyT [])] = Raise IndexError.
Proof.
  exact (collate_fn_nothing_to_collate [([], [])] eq_refl).
Defined.

Lemma mapM_result_raises {A B} (f : A → result B) (l : list A) (x : A) (e : pyerr) :
  x ∈ l → f x = Raise e → ∃ e', mapM f l = Raise e'.
Proof.
  intros Hx Hf. induction l as [|y l IH]; [by apply elem_of_nil in Hx|].
  rewrite mapM_result_cons. apply elem_of_cons in Hx as [<-|Hx].
  - rewrite Hf. by eexists.
  - destruct (f y); [|by eexists]. destruct (IH Hx) as [e' ->]. by eexists.
Qed.

(** [default_collate] on targets of which one is not an int raises: in the
    inference when that target is a str or a dict, and when it is stored
    otherwise. *)
Lemma default_collate_ints_mixed (ts : list pytarget) (t : pytarget) :
  t ∈ ts → (∀ z, t ≠ TInt z) →
  ∃ e, default_collate_ints (OneT <$> ts) = Raise e.
Proof.
  intros Ht Hnot. unfold default_collate_ints.
  destruct (OneT <$> ts) as [|t0 batch] eqn:Hbatch; [by eexists|].
  rewrite <- Hbatch. clear t0 batch Hbatch.
  destruct (mapM infer_entry_type (OneT <$> ts)) as [ds|e]; [|by eexists].
  rewrite bind_Ok.
  destruct (mapM_result_raises (store_scalar (infer_sequence_type ds))
              (OneT <$> ts) (OneT t) TypeError) as [e ->].
  - by apply list_elem_of_fmap_2.
  - destruct t as [z| | | |]; try done. by destruct (Hnot z).
  - by eexists.
Qed.

(** The inference reads the targets in order: after ints, a str stops it
    with TypeError and a dict with RuntimeError. *)
Lemma mapM_infer_first_refused (zs : list Z) (u : pytarget) (rest : list pytarget)
    (e : pyerr) :
  infer_scalar_type u = Raise e →
  mapM infer_entry_type (OneT <$> ((TInt <$> zs) ++ u :: rest)) = Raise e.
Proof.
  intros Hu. induction zs as [|z zs IH].
  - rewrite fmap_nil, app_nil_l, fmap_cons, mapM_result_cons.
    cbn [infer_entry_type]. by rewrite Hu.
  - rewrite fmap_cons, <- app_comm_cons, fmap_cons, mapM_result_cons, IH. done.
Qed.

(** X25.  First targets decide for all: when the first target of a batch of
    single-window samples is an integer and a later target is not,
    [collate_fn] raises, once the clips could be stacked, instead of
    returning the targets as a plain list.  When the first target that is
    not an integer is a str the error is TypeError, and when it is a dict,
    a stored sample or a copy of one, it is RuntimeError. *)
Theorem collate_fn_mixed_targets (items : list (tensor * pytarget))
    (s : list nat) (z : Z) (t : pytarget) :
  Forall (λ c, shape c = s) (fst <$> items) →
  head (snd <$> items) = Some (TInt z) →
  t ∈ (snd <$> items) → (∀ z', t ≠ TInt z') →
  ∃ e, collate_fn (single_window <$> items) = Raise e ∧
    ∀ zs u rest, snd <$> items = (TInt <$> zs) ++ u :: rest →
      match u with
      | TStr _ => e = TypeError
      | TRef _ | TDict _ => e = RuntimeError
      | TInt _ | TList _ => True
      end.
Proof.
  intros Hshape Hhead Ht Hnot.
  assert (items ≠ []) as Hitems by (intros ->; by apply elem_of_nil in Ht).
  rewrite (collate_fn_single_window items Hitems).
  destruct (stack_tensors_ok (fst <$> items) s) as (batched & Hstack & _);
    [by destruct items|done|].
  rewrite default_collate_clips_tensors, Hstack by (by destruct items).
  destruct (default_collate_ints_mixed (snd <$> items) t Ht Hnot) as [e He].
  destruct (snd <$> items) as [|t0 ts] eqn:Htargets; [done|].
  injection Hhead as ->.
  rewrite fmap_cons. change (py_getitem (OneT _ :: _) 0) with (Ok (OneT (TInt z))).
  rewrite !bind_Ok.
  change (OneT (TInt z) :: (OneT <$> ts)) with (OneT <$> (TInt z :: ts)).
  rewrite He. exists e. split; [done|].
  intros zs u rest Hsplit. rewrite Hsplit in He.
  unfold default_collate_ints in He.
  destruct (OneT <$> (TInt <$> zs) ++ u :: rest) as [|b0 batch] eqn:Hbatch.
  { by destruct zs. }
  rewrite <- Hbatch in He. clear b0 batch Hbatch.
  destruct u as [z'|str|l|r|x]; try done.
  - rewrite (mapM_infer_first_refused zs (TStr str) rest TypeError) in He by done.
    by injection He as <-.
  - rewrite (mapM_infer_first_refused zs (TRef r) rest RuntimeError) in He by done.
    by injection He as <-.
  - rewrite (mapM_infer_first_refused zs (TDict x) rest RuntimeError) in He by done.
    by injection He as <-.
Qed.

(** The statement of X25 at two samples with the targets 0 and "v0", and
    with the targets 0 and the stored sample 0. *)
Lemma collate_fn_mixed_targets_witness :
  let c := {| shape := [3; 2; 2; 2]%nat; data_at := λ _, 0 |} in
  collate_fn [(One c, OneT (TInt 0)); (One c, OneT (TStr "v0"))] = Raise TypeError ∧
  collate_fn [(One c, OneT (TInt 0)); (One c, OneT (TRef 0))] = Raise RuntimeError.
Proof.
  cbn zeta.
  set (c := {| shape := [3; 2; 2; 2]%nat; data_at := λ _, 0 |}).
  split.
  - destruct (collate_fn_mixed_targets [(c, TInt 0); (c, TStr "v0")]
                [3; 2; 2; 2]%nat 0 (TStr "v0")) as (e & He & Hclass).
    + repeat constructor.
    + reflexivity.
    + apply list_elem_of_further, list_elem_of_here.
    + discriminate.
    + rewrite (Hclass [0] (TStr "v0") [] eq_refl) in He. exact He.
  - destruct (collate_fn_mixed_targets [(c, TInt 0); (c, TRef 0)]
                [3; 2; 2; 2]%nat 0 (TRef 0)) as (e & He & Hclass).
    + repeat constructor.
    + reflexivity.
    + apply list_elem_of_further, list_elem_of_here.
    + discriminate.
    + rewrite (Hclass [0] (TRef 0) [] eq_refl) in He. exact He.
Defined.
